(** * ChatPDF frontend: the streaming chat client and the API client

    A shallow embedding of
      - [src/services/api.ts]   (TokenManager, ApiClient),
      - [src/services/auth.ts]  (AuthService: login, register, logout, refreshToken),
      - [src/services/chat.ts]  (WebSocketChatClient),
      - [src/components/ChatPanel.tsx] (the handlers installed on the client),
      - [src/App.tsx]           (handleSendMessage),
    with the browser (localStorage, WebSocket objects, timers, console) as
    explicit state.  JavaScript numbers are binary64 floats where the code
    treats them as such (temperature, max_tokens, page numbers) and [Z] for
    the reconnect counter and HTTP status codes, which stay small integers. *)

From Stdlib Require Import ZArith String List Bool Lia.
From Stdlib Require Import Floats.PrimFloat Floats.SpecFloat Floats.FloatAxioms.
From Stdlib Require Import Sorting.Sorted.
From stdpp Require Import base option list gmap strings pretty.

Set Warnings "-inexact-float".
Open Scope string_scope.
Open Scope list_scope.
Open Scope Z_scope.

(** ** JavaScript values the code relies on *)

Module JS.

(** Truthiness of a string: every string but the empty one. *)
Definition truthy_string (s : string) : bool :=
  negb (String.eqb s "").

(** Truthiness of a number: every number but +0, -0 and NaN. *)
Definition truthy_number (x : float) : bool :=
  negb (PrimFloat.eqb x 0%float || negb (PrimFloat.eqb x x)).

(** [v || d] where [v] is a possibly-undefined string. *)
Definition or_string (v : option string) (d : string) : string :=
  match v with
  | Some s => if truthy_string s then s else d
  | None => d
  end.

(** [v || d] where [v] is a possibly-undefined number. *)
Definition or_number (v : option float) (d : float) : float :=
  match v with
  | Some x => if truthy_number x then x else d
  | None => d
  end.

(** [a || b] where both sides may be undefined numbers. *)
Definition or_number_opt (a b : option float) : option float :=
  match a with
  | Some x => if truthy_number x then Some x else b
  | None => b
  end.

(** Truthiness of a possibly-null string, as in [if (!refreshToken)]. *)
Definition truthy (v : option string) : bool :=
  match v with
  | Some s => truthy_string s
  | None => false
  end.

(** String conversion of a possibly-undefined string, as performed by
    [prev + data.token] and by [localStorage.setItem]. *)
Definition String_undefined (v : option string) : string :=
  match v with
  | Some s => s
  | None => "undefined"
  end.

(** String conversion of a possibly-null string inside a template
    literal, as in [`Bearer ${newAccessToken}`] on [getItem]'s result. *)
Definition String_null (v : option string) : string :=
  match v with
  | Some s => s
  | None => "null"
  end.

(** [hay.includes(needle)]. *)
Fixpoint includes (needle hay : string) : bool :=
  if String.prefix needle hay then true
  else match hay with
       | EmptyString => false
       | String _ rest => includes needle rest
       end.

End JS.

(** ** Completion records: a call returns normally or throws *)

Inductive Completion (E A : Type) : Type :=
| Normal (a : A)
| Throw (e : E).
Arguments Normal {E A} a.
Arguments Throw {E A} e.

(** ** TokenManager (api.ts lines 74-111) over the browser's localStorage *)

Module TokenManager.

Definition ACCESS_TOKEN_KEY : string := "chatpdf_access_token".
Definition REFRESH_TOKEN_KEY : string := "chatpdf_refresh_token".
Definition USER_KEY : string := "chatpdf_user".
Definition AUTH_STORE_KEY : string := "auth-store".

Definition getAccessToken (ls : gmap string string) : option string :=
  ls !! ACCESS_TOKEN_KEY.

Definition getRefreshToken (ls : gmap string string) : option string :=
  ls !! REFRESH_TOKEN_KEY.

(** [user] is given already serialised: [None] when the argument is
    falsy, [Some (JSON.stringify user)] otherwise. *)
Definition setTokens (accessToken refreshToken : option string)
    (user : option string) (ls : gmap string string) : gmap string string :=
  let ls1 := <[ACCESS_TOKEN_KEY := JS.String_undefined accessToken]> ls in
  let ls2 := <[REFRESH_TOKEN_KEY := JS.String_undefined refreshToken]> ls1 in
  match user with
  | Some u => <[USER_KEY := u]> ls2
  | None => ls2
  end.

Definition clearTokens (ls : gmap string string) : gmap string string :=
  delete AUTH_STORE_KEY
    (delete USER_KEY
       (delete REFRESH_TOKEN_KEY
          (delete ACCESS_TOKEN_KEY ls))).

Definition isAuthenticated (ls : gmap string string) : bool :=
  JS.truthy (getAccessToken ls) && JS.truthy (getRefreshToken ls).

End TokenManager.

(** ** chat.ts: the WebSocket chat client *)

Module Chat.

(** A retrieved document chunk as ChatPanel reads it ([chunk.page],
    [chunk.page_number]). *)
Record Chunk : Type := {
  page : option float;
  page_number : option float
}.

(** The [chunks] value of a message when it is neither absent nor [null]:
    an array, whose elements are chunk objects or [null], or any other
    value (a string, a number, an object), which has no [map]. *)
Inductive Chunks : Type :=
| ChunkArray (items : list (option Chunk))
| NotAnArray.

(** An incoming message after [JSON.parse]: [WSMessage] with the keys the
    interfaces [WSTokenMessage], [WSResponseCompleteMessage] and
    [WSErrorMessage] declare.  [None] is JavaScript's [undefined] (the key
    is absent).  A parsed number, string, boolean or array has no [type]
    key and is represented by the record with every field [None]. *)
Record WSMessage : Type := {
  type : option string;
  message_id : option string;
  token : option string;
  content : option string;
  chunks : option Chunks;
  timestamp : option string;
  message : option string
}.

(** What [JSON.parse(event.data)] does. *)
Inductive Parsed : Type :=
| SyntaxError
| ParsedNull
| ParsedValue (data : WSMessage).

(** The [options] of [sendMessage] and the [settings] of
    [updateSettings]. *)
Record Options : Type := {
  model : option string;
  temperature : option float;
  max_tokens : option float
}.

(** [WSChatMessage] as [sendMessage] builds it. *)
Record WSChatMessage : Type := {
  chat_type : string;
  chat_message : string;
  chat_model : string;
  chat_temperature : float;
  chat_max_tokens : float
}.

(** The object [updateSettings] builds: [{type: 'settings_update', ...settings}]. *)
Record WSSettingsUpdate : Type := {
  settings_type : string;
  settings_rest : Options
}.

Inductive Outgoing : Type :=
| OutChat (data : WSChatMessage)
| OutSettings (data : WSSettingsUpdate).

(** The parts of the JavaScript platform and of the build configuration
    that the client calls but does not define. *)
Class Platform : Type := {
  (** [import.meta.env.VITE_WS_BASE_URL] *)
  VITE_WS_BASE_URL : option string;
  JSON_parse : string -> Parsed;
  JSON_stringify : Outgoing -> string;
  (** The message of the exception [new WebSocket(url)] throws, if any. *)
  WebSocket_rejects : string -> option string
}.

(** api.ts line 15 *)
Definition API_WS_BASE_URL `{Platform} : string :=
  JS.or_string VITE_WS_BASE_URL "ws://localhost:8000".

Inductive ReadyState : Type := CONNECTING | OPEN | CLOSING | CLOSED.

Definition ReadyState_eqb (a b : ReadyState) : bool :=
  match a, b with
  | CONNECTING, CONNECTING | OPEN, OPEN | CLOSING, CLOSING | CLOSED, CLOSED => true
  | _, _ => false
  end.

(** A browser WebSocket object: its state and the frames handed to
    [send] so far, oldest first. *)
Record WebSocket : Type := {
  url : string;
  readyState : ReadyState;
  sent : list string
}.

Definition set_readyState (r : ReadyState) (w : WebSocket) : WebSocket :=
  {| url := url w; readyState := r; sent := sent w |}.

(** [ws.close()]: starts the closing handshake unless already closing or
    closed. *)
Definition WebSocket_close (w : WebSocket) : WebSocket :=
  match readyState w with
  | CONNECTING | OPEN => set_readyState CLOSING w
  | CLOSING | CLOSED => w
  end.

(** [ws.send(frame)] on an open socket. *)
Definition WebSocket_send (frame : string) (w : WebSocket) : WebSocket :=
  {| url := url w; readyState := readyState w; sent := sent w ++ [frame] |}.

(** What the client does to the outside, in order: console output (the
    leading literal of each call), handler invocations, and the
    settlement of the promise returned by the [connect()] call that
    created socket [sid]. *)
Inductive Effect : Type :=
| console_log (text : string)
| console_error (text : string)
| call_onConnect
| call_onDisconnect
| call_onError
| call_onToken (data : WSMessage)
| call_onResponseComplete (data : WSMessage)
| call_onMessage (data : WSMessage)
| call_onChatError (data : WSMessage)
| promise_resolve (sid : nat)
| promise_reject (sid : nat) (reason : string).

Definition is_callback (e : Effect) : bool :=
  match e with
  | call_onConnect | call_onDisconnect | call_onError
  | call_onToken _ | call_onResponseComplete _
  | call_onMessage _ | call_onChatError _ => true
  | _ => false
  end.

Definition maxReconnectAttempts : Z := 5.
Definition reconnectInterval : Z := 1000.

Section Client.
(** [U] is the state the handlers act on (ChatPanel's and App's React
    state below).  Handlers touch nothing else: the ones ChatPanel installs
    do not call back into the client.  The connection handlers are total;
    a message handler may throw, and then also gives the state it leaves
    behind. *)
Context {U : Type}.

Record Handlers : Type := {
  onConnect : option (U -> U);
  onDisconnect : option (U -> U);
  onError : option (U -> U);
  onToken : option (WSMessage -> U -> Completion string unit * U);
  onResponseComplete : option (WSMessage -> U -> Completion string unit * U);
  onMessage : option (WSMessage -> U -> Completion string unit * U);
  onChatError : option (WSMessage -> U -> Completion string unit * U)
}.

(** The client instance together with the browser around it. *)
Record State : Type := {
  (* fields of WebSocketChatClient *)
  ws : option nat;
  chatId : string;
  documentId : string;
  reconnectAttempts : Z;
  isIntentionallyClosed : bool;
  handlers : Handlers;
  (* the browser *)
  localStorage : gmap string string;
  sockets : list WebSocket;
  timers : list Z;
  trace : list Effect;
  (* the handlers' state *)
  ui : U
}.

Definition set_ws (v : option nat) (s : State) : State :=
  {| ws := v; chatId := chatId s; documentId := documentId s;
     reconnectAttempts := reconnectAttempts s;
     isIntentionallyClosed := isIntentionallyClosed s;
     handlers := handlers s; localStorage := localStorage s;
     sockets := sockets s; timers := timers s; trace := trace s;
     ui := ui s |}.

Definition set_reconnectAttempts (v : Z) (s : State) : State :=
  {| ws := ws s; chatId := chatId s; documentId := documentId s;
     reconnectAttempts := v;
     isIntentionallyClosed := isIntentionallyClosed s;
     handlers := handlers s; localStorage := localStorage s;
     sockets := sockets s; timers := timers s; trace := trace s;
     ui := ui s |}.

Definition set_isIntentionallyClosed (v : bool) (s : State) : State :=
  {| ws := ws s; chatId := chatId s; documentId := documentId s;
     reconnectAttempts := reconnectAttempts s;
     isIntentionallyClosed := v;
     handlers := handlers s; localStorage := localStorage s;
     sockets := sockets s; timers := timers s; trace := trace s;
     ui := ui s |}.

Definition set_sockets (v : list WebSocket) (s : State) : State :=
  {| ws := ws s; chatId := chatId s; documentId := documentId s;
     reconnectAttempts := reconnectAttempts s;
     isIntentionallyClosed := isIntentionallyClosed s;
     handlers := handlers s; localStorage := localStorage s;
     sockets := v; timers := timers s; trace := trace s;
     ui := ui s |}.

Definition set_timers (v : list Z) (s : State) : State :=
  {| ws := ws s; chatId := chatId s; documentId := documentId s;
     reconnectAttempts := reconnectAttempts s;
     isIntentionallyClosed := isIntentionallyClosed s;
     handlers := handlers s; localStorage := localStorage s;
     sockets := sockets s; timers := v; trace := trace s;
     ui := ui s |}.

Definition set_trace (v : list Effect) (s : State) : State :=
  {| ws := ws s; chatId := chatId s; documentId := documentId s;
     reconnectAttempts := reconnectAttempts s;
     isIntentionallyClosed := isIntentionallyClosed s;
     handlers := handlers s; localStorage := localStorage s;
     sockets := sockets s; timers := timers s; trace := v;
     ui := ui s |}.

Definition set_ui (v : U) (s : State) : State :=
  {| ws := ws s; chatId := chatId s; documentId := documentId s;
     reconnectAttempts := reconnectAttempts s;
     isIntentionallyClosed := isIntentionallyClosed s;
     handlers := handlers s; localStorage := localStorage s;
     sockets := sockets s; timers := timers s; trace := trace s;
     ui := v |}.

Definition emit (e : Effect) (s : State) : State :=
  set_trace (trace s ++ [e]) s.

(** [this.onX?.()] *)
Definition call0 (h : option (U -> U)) (e : Effect) (s : State) : State :=
  match h with
  | Some f => set_ui (f (ui s)) (emit e s)
  | None => s
  end.

(** [this.onX?.(data)] *)
Definition call1 (h : option (WSMessage -> U -> Completion string unit * U))
    (e : WSMessage -> Effect) (data : WSMessage) (s : State)
    : Completion string unit * State :=
  match h with
  | Some f =>
      let (outcome, u) := f data (ui s) in
      (outcome, set_ui u (emit (e data) s))
  | None => (Normal tt, s)
  end.

(** [console.log(text, ...)] as a statement of [handleMessage]. *)
Definition log (text : string) (s : State) : Completion string unit * State :=
  (Normal tt, emit (console_log text) s).

(** [setTimeout(callback, delay)]: the callback is always the
    reconnect closure of [onclose], so a pending timer is its delay. *)
Definition setTimeout (delay : Z) (s : State) : State :=
  set_timers (timers s ++ [delay]) s.

Context `{Platform}.

(** [connect()], lines 228-287.  [Throw reason]: the returned promise is
    already rejected.  [Normal tt]: a socket was created and the promise
    is settled later by that socket's open or error event. *)
Definition connect (s : State) : Completion string unit * State :=
  let accessToken := TokenManager.getAccessToken (localStorage s) in
  if negb (JS.truthy accessToken) then
    (Throw "No access token available", s)
  else
    let wsUrl :=
      API_WS_BASE_URL +:+ "/ws/chat/" +:+ chatId s +:+ "/document/"
        +:+ documentId s +:+ "/?token=" +:+ JS.String_null accessToken in
    let s1 := emit (console_log "Connecting to WebSocket URL:") s in
    let s2 := emit (console_log "Chat ID:") s1 in
    match WebSocket_rejects wsUrl with
    | Some reason => (Throw reason, s2)
    | None =>
        let sid := length (sockets s2) in
        let w := {| url := wsUrl; readyState := CONNECTING; sent := [] |} in
        (Normal tt, set_ws (Some sid) (set_sockets (sockets s2 ++ [w]) s2))
    end.

(** [ws.onopen], lines 241-246, for the socket [sid]. *)
Definition onopen (sid : nat) (s : State) : State :=
  let s1 := emit (console_log "WebSocket connected successfully") s in
  let s2 := set_reconnectAttempts 0 s1 in
  let s3 := call0 (onConnect (handlers s2)) call_onConnect s2 in
  emit (promise_resolve sid) s3.

(** [handleMessage], lines 356-394. *)
Definition handleMessage (data : WSMessage) (s : State)
    : Completion string unit * State :=
  match type data with
  | Some t =>
      if String.eqb t "connection" then
        log "WebSocket connection confirmed" s
      else if String.eqb t "message_saved" then
        log "Message saved:" s
      else if String.eqb t "response_start" then
        log "AI response started:" s
      else if String.eqb t "token" then
        call1 (onToken (handlers s)) call_onToken data s
      else if String.eqb t "chunks_retrieved" then
        log "Document chunks retrieved:" s
      else if String.eqb t "response_complete" then
        call1 (onResponseComplete (handlers s)) call_onResponseComplete data s
      else if String.eqb t "settings_updated" then
        log "Settings updated:" s
      else if String.eqb t "error" then
        call1 (onChatError (handlers s)) call_onChatError data s
      else
        let s1 := emit (console_log "Unknown message type:") s in
        call1 (onMessage (handlers s1)) call_onMessage data s1
  | None =>
      let s1 := emit (console_log "Unknown message type:") s in
      call1 (onMessage (handlers s1)) call_onMessage data s1
  end.

(** The [try] block of [ws.onmessage], lines 250-251: [JSON.parse]
    throws on malformed text, reading [data.type] throws when [data] is
    [null], and what a handler throws passes through [handleMessage]. *)
Definition onmessage_try (event_data : string) (s : State)
    : Completion string unit * State :=
  match JSON_parse event_data with
  | SyntaxError => (Throw "SyntaxError", s)
  | ParsedNull => (Throw "TypeError", s)
  | ParsedValue data => handleMessage data s
  end.

(** [ws.onmessage], lines 248-255: the [try] block and its [catch]. *)
Definition onmessage (event_data : string) (s : State)
    : Completion string unit * State :=
  match onmessage_try event_data s with
  | (Throw error, s1) =>
      (Normal tt, emit (console_error "Failed to parse WebSocket message:") s1)
  | (Normal tt, s1) => (Normal tt, s1)
  end.

(** [ws.onclose], lines 257-270.  The delay is computed when
    [setTimeout] is called, that is before the callback increments the
    counter. *)
Definition onclose (code : Z) (reason : string) (s : State) : State :=
  let s1 := emit (console_log "WebSocket disconnected:") s in
  let s2 := emit (console_log "Close event details:") s1 in
  let s3 := call0 (onDisconnect (handlers s2)) call_onDisconnect s2 in
  if negb (isIntentionallyClosed s3)
     && (reconnectAttempts s3 <? maxReconnectAttempts) then
    setTimeout (reconnectInterval * reconnectAttempts s3) s3
  else s3.

(** The callback given to [setTimeout], lines 264-268.  The promise
    returned by [this.connect()] is dropped. *)
Definition reconnect_callback (s : State) : State :=
  let s1 := set_reconnectAttempts (reconnectAttempts s + 1) s in
  let s2 := emit (console_log "Attempting to reconnect") s1 in
  snd (connect s2).

(** [ws.onerror], lines 272-282, for the socket [sid]. *)
Definition onerror (sid : nat) (s : State) : State :=
  let s1 := emit (console_error "WebSocket error:") s in
  let s2 := emit (console_error "WebSocket error details:") s1 in
  let s3 := call0 (onError (handlers s2)) call_onError s2 in
  emit (promise_reject sid "WebSocket connection failed") s3.

(** [disconnect()], lines 292-298. *)
Definition disconnect (s : State) : State :=
  let s1 := set_isIntentionallyClosed true s in
  match ws s1 with
  | Some sid =>
      set_ws None (set_sockets (alter WebSocket_close sid (sockets s1)) s1)
  | None => s1
  end.

(** The guard of [sendMessage], [updateSettings] and [isConnected]:
    [this.ws !== null && this.ws.readyState === WebSocket.OPEN],
    giving the socket. *)
Definition open_socket (s : State) : option nat :=
  match ws s with
  | Some sid =>
      match sockets s !! sid with
      | Some w => if ReadyState_eqb (readyState w) OPEN then Some sid else None
      | None => None
      end
  | None => None
  end.

Definition ws_send (sid : nat) (frame : string) (s : State) : State :=
  set_sockets (alter (WebSocket_send frame) sid (sockets s)) s.

(** [sendMessage(message, options)], lines 303-324. *)
Definition sendMessage (message : string) (options : Options) (s : State)
    : Completion string unit * State :=
  match open_socket s with
  | None => (Throw "WebSocket is not connected", s)
  | Some sid =>
      let data :=
        {| chat_type := "chat_message";
           chat_message := message;
           chat_model := JS.or_string (model options) "standard";
           chat_temperature := JS.or_number (temperature options) 0.7%float;
           chat_max_tokens := JS.or_number (max_tokens options) 2048%float |} in
      (Normal tt, ws_send sid (JSON_stringify (OutChat data)) s)
  end.

(** [updateSettings(settings)], lines 329-344. *)
Definition updateSettings (settings : Options) (s : State)
    : Completion string unit * State :=
  match open_socket s with
  | None => (Throw "WebSocket is not connected", s)
  | Some sid =>
      let data :=
        {| settings_type := "settings_update"; settings_rest := settings |} in
      (Normal tt, ws_send sid (JSON_stringify (OutSettings data)) s)
  end.

(** [isConnected()], lines 349-351. *)
Definition isConnected (s : State) : bool :=
  match open_socket s with Some _ => true | None => false end.

(** *** The event loop

    Everything that can happen to a client: calls of its public
    methods, events the browser delivers on a socket the client
    created, and a pending reconnect timer firing.  The browser sets
    [readyState] before it runs the handler.  No ordering is imposed on
    the browser's events, so every real run is a run of [step]. *)
Inductive Event : Type :=
| Call_connect
| Call_disconnect
| Call_sendMessage (message : string) (options : Options)
| Call_updateSettings (settings : Options)
| Ws_open (sid : nat)
| Ws_message (sid : nat) (event_data : string)
| Ws_close (sid : nat) (code : Z) (reason : string)
| Ws_error (sid : nat)
| Timer_fire (i : nat).

Definition step (s : State) (e : Event) : State :=
  match e with
  | Call_connect => snd (connect s)
  | Call_disconnect => disconnect s
  | Call_sendMessage message options => snd (sendMessage message options s)
  | Call_updateSettings settings => snd (updateSettings settings s)
  | Ws_open sid =>
      match sockets s !! sid with
      | Some _ =>
          onopen sid (set_sockets (alter (set_readyState OPEN) sid (sockets s)) s)
      | None => s
      end
  | Ws_message sid event_data =>
      match sockets s !! sid with
      | Some _ => snd (onmessage event_data s)
      | None => s
      end
  | Ws_close sid code reason =>
      match sockets s !! sid with
      | Some _ =>
          onclose code reason
            (set_sockets (alter (set_readyState CLOSED) sid (sockets s)) s)
      | None => s
      end
  | Ws_error sid =>
      match sockets s !! sid with
      | Some _ => onerror sid s
      | None => s
      end
  | Timer_fire i =>
      match timers s !! i with
      | Some _ => reconnect_callback (set_timers (delete i (timers s)) s)
      | None => s
      end
  end.

Definition run (s : State) (es : list Event) : State :=
  fold_left step es s.

(** A client fresh from its constructor (lines 203-223) in a browser
    that holds [ls] and no sockets or timers yet. *)
Definition new_client (chat_id document_id : string) (h : Handlers)
    (ls : gmap string string) (u : U) : State :=
  {| ws := None; chatId := chat_id; documentId := document_id;
     reconnectAttempts := 0; isIntentionallyClosed := false;
     handlers := h; localStorage := ls; sockets := []; timers := [];
     trace := []; ui := u |}.

End Client.
Arguments Handlers : clear implicits.
Arguments State : clear implicits.

End Chat.

(** ** ChatPanel.tsx and App.tsx: the state behind the handlers *)

Module ChatPanel.

(** [Message] of App.tsx as ChatPanel builds it and App stores it.
    [timestamp] holds the argument given to [new Date].  A page reference
    is [None] once it has become [null] (see [JSON_round_trip]). *)
Record Message : Type := {
  id : option string;
  role : string;
  content : option string;
  pageReferences : list (option float);
  timestamp : option string
}.

(** The React state the handlers write: ChatPanel's [useState] cells,
    App's [messages], and the toasts shown. *)
Record Panel : Type := {
  isGenerating : bool;
  streamingMessage : string;
  isConnected : bool;
  messages : list Message;
  toasts : list (option string)
}.

(** [useState] initial values (ChatPanel lines 57-62, App's
    [useState<Message[]>([])]). *)
Definition initial : Panel :=
  {| isGenerating := false; streamingMessage := ""; isConnected := false;
     messages := []; toasts := [] |}.

Definition setIsGenerating (v : bool) (p : Panel) : Panel :=
  {| isGenerating := v; streamingMessage := streamingMessage p;
     isConnected := isConnected p; messages := messages p;
     toasts := toasts p |}.

Definition setStreamingMessage (f : string -> string) (p : Panel) : Panel :=
  {| isGenerating := isGenerating p;
     streamingMessage := f (streamingMessage p);
     isConnected := isConnected p; messages := messages p;
     toasts := toasts p |}.

Definition setIsConnected (v : bool) (p : Panel) : Panel :=
  {| isGenerating := isGenerating p; streamingMessage := streamingMessage p;
     isConnected := v; messages := messages p; toasts := toasts p |}.

Definition setMessages (f : list Message -> list Message) (p : Panel) : Panel :=
  {| isGenerating := isGenerating p; streamingMessage := streamingMessage p;
     isConnected := isConnected p; messages := f (messages p);
     toasts := toasts p |}.

Definition toast_error (text : option string) (p : Panel) : Panel :=
  {| isGenerating := isGenerating p; streamingMessage := streamingMessage p;
     isConnected := isConnected p; messages := messages p;
     toasts := toasts p ++ [text] |}.

(** [Array.from(new Set(xs))]: first occurrences, in order. *)
Fixpoint unique (seen xs : list float) : list float :=
  match xs with
  | [] => []
  | x :: rest =>
      if existsb (PrimFloat.eqb x) seen then unique seen rest
      else x :: unique (x :: seen) rest
  end.

Fixpoint insert_ascending (x : float) (xs : list float) : list float :=
  match xs with
  | [] => [x]
  | y :: rest =>
      if PrimFloat.leb x y then x :: xs else y :: insert_ascending x rest
  end.

(** [xs.sort((a, b) => a - b)] *)
Definition sort_ascending (xs : list float) : list float :=
  fold_right insert_ascending [] xs.

(** Lines 113-118: [chunk.page || chunk.page_number] of every chunk,
    the positive numbers among them, without duplicates, ascending.
    [data.chunks] may be undefined, which gives the empty list. *)
Definition uniquePages (chunks : option (list Chat.Chunk)) : list float :=
  let pageReferences :=
    match chunks with
    | Some cs =>
        List.filter (fun page => PrimFloat.ltb 0%float page)
          (omap (fun chunk =>
                   JS.or_number_opt (Chat.page chunk) (Chat.page_number chunk))
                cs)
    | None => []
    end in
  sort_ascending (unique [] pageReferences).

(** What [JSON.parse(JSON.stringify(message))] makes of a message:
    strings and finite numbers come back as they were, absent keys stay
    absent, and a number that is not finite comes back as [null].  The
    timestamp, a [Date] before and its text after, stays recorded as the
    argument the date was made from. *)
Definition JSON_round_trip (m : Message) : Message :=
  {| id := id m; role := role m; content := content m;
     pageReferences :=
       (fun reference =>
          match reference with
          | Some x => if PrimFloat.is_finite x then Some x else None
          | None => None
          end) <$> pageReferences m;
     timestamp := timestamp m |}.

(** App.tsx [handleSendMessage] on the string ChatPanel passes,
    ['INTERNAL_AI_MESSAGE:' + JSON.stringify(newMessage)]: the prefix is
    recognised, the rest parsed back, and the result appended. *)
Definition handleSendMessage_ai (newMessage : Message) (p : Panel) : Panel :=
  setMessages (fun prev => (prev ++ [JSON_round_trip newMessage])%list) p.

(** [client.onConnect], lines 97-100 *)
Definition onConnect (p : Panel) : Panel := setIsConnected true p.

(** [client.onDisconnect], lines 102-105 *)
Definition onDisconnect (p : Panel) : Panel := setIsConnected false p.

(** [client.onToken], lines 107-109 *)
Definition onToken (data : Chat.WSMessage) (p : Panel)
    : Completion string unit * Panel :=
  (Normal tt,
   setStreamingMessage
     (fun prev => prev +:+ JS.String_undefined (Chat.token data)) p).

(** The chunk objects of an array, unless one of its elements is [null]. *)
Fixpoint chunk_objects (items : list (option Chat.Chunk))
    : option (list Chat.Chunk) :=
  match items with
  | [] => Some []
  | Some chunk :: rest => cons chunk <$> chunk_objects rest
  | None :: _ => None
  end.

(** The part of [data.chunks?.map(chunk => chunk.page || chunk.page_number)]
    that can throw, lines 113-114: an absent [chunks] is skipped, a value
    that is not an array has no [map], and reading [page] of a [null]
    element fails. *)
Definition read_chunks (chunks : option Chat.Chunks)
    : Completion string (option (list Chat.Chunk)) :=
  match chunks with
  | None => Normal None
  | Some Chat.NotAnArray => Throw "TypeError: data.chunks?.map is not a function"
  | Some (Chat.ChunkArray items) =>
      match chunk_objects items with
      | Some objects => Normal (Some objects)
      | None => Throw "TypeError: Cannot read properties of null"
      end
  end.

(** [client.onResponseComplete], lines 111-133.  The page references are
    computed first, so a throw there leaves the panel as it was. *)
Definition onResponseComplete (data : Chat.WSMessage) (p : Panel)
    : Completion string unit * Panel :=
  match read_chunks (Chat.chunks data) with
  | Throw error => (Throw error, p)
  | Normal chunk_list =>
      let newMessage :=
        {| id := Chat.message_id data;
           role := "ai";
           content := Chat.content data;
           pageReferences := Some <$> uniquePages chunk_list;
           timestamp := Chat.timestamp data |} in
      let p1 := handleSendMessage_ai newMessage p in
      let p2 := setStreamingMessage (fun _ => "") p1 in
      (Normal tt, setIsGenerating false p2)
  end.

(** [client.onChatError], lines 135-139 *)
Definition onChatError (data : Chat.WSMessage) (p : Panel)
    : Completion string unit * Panel :=
  let p1 := toast_error (Chat.message data) p in
  let p2 := setIsGenerating false p1 in
  (Normal tt, setStreamingMessage (fun _ => "") p2).

(** The handlers [initializeChat] installs; [onError] and [onMessage]
    stay undefined. *)
Definition handlers : Chat.Handlers Panel :=
  {| Chat.onConnect := Some onConnect;
     Chat.onDisconnect := Some onDisconnect;
     Chat.onError := None;
     Chat.onToken := Some onToken;
     Chat.onResponseComplete := Some onResponseComplete;
     Chat.onMessage := None;
     Chat.onChatError := Some onChatError |}.

End ChatPanel.

(** ** api.ts: the HTTP client *)

Module Api.

(** auth.ts [User] *)
Record User : Type := {
  user_id : Z;
  email : string;
  first_name : string;
  last_name : string;
  full_name : string;
  initials : string;
  avatar : option string;
  avatar_url : option string;
  join_date : string;
  is_email_verified : bool;
  oauth_provider : option string;
  created_at : string;
  updated_at : string
}.

(** auth.ts [LoginCredentials] *)
Record LoginCredentials : Type := {
  login_email : string;
  login_password : string;
  remember_me : option bool
}.

(** auth.ts [RegisterData] *)
Record RegisterData : Type := {
  register_email : string;
  register_password : string;
  register_first_name : string;
  register_last_name : string;
  password_confirm : string
}.

(** The request bodies the modelled code builds. *)
Inductive RequestBody : Type :=
| NoBody
| CredentialsBody (credentials : LoginCredentials)
| RefreshBody (refresh : string)
| RegisterBody (registration : RegisterData)
| LogoutBody (refresh_token : string)
| OtherBody (json : string).

(** A response body as the code reads it: the keys of [AuthTokens] and
    the keys [handleError] looks at.  [None] is an absent key. *)
Record ResponseData : Type := {
  access : option string;
  refresh : option string;
  user : option User;
  message : option string;
  detail : option string;
  errors : option (gmap string (list string))
}.

(** [AxiosRequestConfig & { _retry?: boolean }].  axios normalises
    [headers] to an object before a request is dispatched, so the guard
    [if (originalRequest.headers)] of line 169 always passes; axios also
    keeps the custom key [_retry] when the config is passed back in. *)
Record Config : Type := {
  method : string;
  url : string;
  data : RequestBody;
  headers : gmap string string;
  _retry : bool
}.

(** What goes on the wire. *)
Record Request : Type := {
  req_method : string;
  req_url : string;
  req_headers : gmap string string;
  req_body : RequestBody
}.

(** How a dispatched request ends: a response with a status and a body
    ([None] is the body [null]), no response, or a failure before
    anything was sent. *)
Inductive Outcome : Type :=
| Responded (status : Z) (body : option ResponseData)
| NoResponse
| SetupFailed (reason : string).

Class Platform : Type := {
  (** [import.meta.env.VITE_API_BASE_URL] *)
  VITE_API_BASE_URL : option string;
  (** [JSON.stringify] on a user record *)
  JSON_stringify : User -> string;
  (** The network as axios's adapter sees it: the outcome of a request
      given the requests sent before it, oldest first. *)
  adapter : list Request -> Request -> Outcome
}.

(** api.ts line 14 *)
Definition API_BASE_URL `{Platform} : string :=
  JS.or_string VITE_API_BASE_URL "http://localhost:8000".

Definition AUTH_LOGIN : string := "/api/auth/login/".
Definition AUTH_REFRESH : string := "/api/auth/refresh/".
Definition AUTH_REGISTER : string := "/api/auth/register/".
Definition AUTH_LOGOUT : string := "/api/auth/logout/".

(** [ApiException.errors]: [data?.errors || data] is the errors object
    when the body has one, the body itself otherwise. *)
Inductive ErrorDetails : Type :=
| FieldErrors (fields : gmap string (list string))
| WholeBody (body : ResponseData).

Record ApiException : Type := {
  exn_message : string;
  exn_status : option Z;
  exn_errors : option ErrorDetails
}.

Record AxiosResponse : Type := {
  resp_status : Z;
  resp_data : option ResponseData;
  resp_config : Config
}.

Record AxiosError : Type := {
  err_config : Config;
  err_response : option AxiosResponse;
  err_request : bool;
  err_message : string
}.

(** What can be thrown. *)
Inductive Exn : Type :=
| ExnApi (e : ApiException)
| ExnAxios (e : AxiosError)
| ExnTypeError (text : string).

Definition instanceof_ApiException (e : Exn) : bool :=
  match e with ExnApi _ => true | _ => false end.

(** The browser as the HTTP client touches it. *)
Record World : Type := {
  localStorage : gmap string string;
  requests : list Request;
  console : list string
}.

(** *** Computations: state, exceptions, and a recursion budget *)

Inductive Result (A : Type) : Type :=
| Returned (a : A)
| Thrown (e : Exn)
| OutOfFuel.
Arguments Returned {A} a.
Arguments Thrown {A} e.
Arguments OutOfFuel {A}.

Definition M (A : Type) : Type := World -> Result A * World.

Definition ret {A} (a : A) : M A := fun w => (Returned a, w).

Definition bind {A B} (m : M A) (k : A -> M B) : M B :=
  fun w =>
    match m w with
    | (Returned a, w1) => k a w1
    | (Thrown e, w1) => (Thrown e, w1)
    | (OutOfFuel, w1) => (OutOfFuel, w1)
    end.

Definition throw {A} (e : Exn) : M A := fun w => (Thrown e, w).

(** [try { m } catch (error) { handler error }] *)
Definition try_catch {A} (m : M A) (handler : Exn -> M A) : M A :=
  fun w =>
    match m w with
    | (Thrown e, w1) => handler e w1
    | r => r
    end.

(** [try { m } finally { cleanup }]: [cleanup] runs whether [m] returned
    or threw, and the outcome of [m] stands unless [cleanup] throws. *)
Definition try_finally {A} (m : M A) (cleanup : M unit) : M A :=
  fun w =>
    match m w with
    | (OutOfFuel, w1) => (OutOfFuel, w1)
    | (r, w1) =>
        match cleanup w1 with
        | (Returned _, w2) => (r, w2)
        | (Thrown e, w2) => (Thrown e, w2)
        | (OutOfFuel, w2) => (OutOfFuel, w2)
        end
    end.

Definition get_localStorage : M (gmap string string) :=
  fun w => (Returned (localStorage w), w).

Definition modify_localStorage (f : gmap string string -> gmap string string)
    : M unit :=
  fun w =>
    (Returned tt,
     {| localStorage := f (localStorage w); requests := requests w;
        console := console w |}).

Definition console_log (text : string) : M unit :=
  fun w =>
    (Returned tt,
     {| localStorage := localStorage w; requests := requests w;
        console := console w ++ [text] |}).

#[global] Instance M_ret : MRet M := @ret.
#[global] Instance M_bind : MBind M := fun A B k m => bind m k.

Definition add_request (r : Request) (w : World) : World :=
  {| localStorage := localStorage w; requests := requests w ++ [r];
     console := console w |}.

Definition set_header (name value : string) (config : Config) : Config :=
  {| method := method config; url := url config; data := data config;
     headers := <[name := value]> (headers config);
     _retry := _retry config |}.

Definition set_retry (v : bool) (config : Config) : Config :=
  {| method := method config; url := url config; data := data config;
     headers := headers config; _retry := v |}.

Section Client.
Context `{Platform}.

(** The world once [r] has been handed to the transport: [r] is in the log
    of requests sent, unless the attempt failed before anything was sent. *)
Definition dispatched (r : Request) (w : World) : World :=
  match adapter (requests w) r with
  | SetupFailed _ => w
  | _ => add_request r w
  end.

(** Hands [r] to the transport and gives the outcome. *)
Definition dispatch (r : Request) : M Outcome :=
  fun w => (Returned (adapter (requests w) r), dispatched r w).

(** The body of the request interceptor, lines 145-155, given what
    localStorage holds. *)
Definition prepare (ls : gmap string string) (config : Config) : Config :=
  let accessToken := TokenManager.getAccessToken ls in
  let config1 :=
    if JS.truthy accessToken
    then set_header "Authorization" ("Bearer " +:+ JS.String_null accessToken) config
    else config in
  let base := API_BASE_URL in
  if JS.includes "ngrok-free.app" base
  then set_header "ngrok-skip-browser-warning" "true" config1
  else config1.

Definition request_interceptor (config : Config) : M Config :=
  ls ← get_localStorage;
  mret (prepare ls config).

(** The request the instance puts on the wire for a config: the URL is
    [baseURL] followed by [config.url]. *)
Definition wire (config : Config) : Request :=
  {| req_method := method config;
     req_url := API_BASE_URL +:+ url config;
     req_headers := headers config;
     req_body := data config |}.

(** [handleError], lines 184-198: always throws. *)
Definition handleError {A} (error : AxiosError) : M A :=
  match err_response error with
  | Some response =>
      let d := resp_data response in
      let message :=
        match d with
        | Some body =>
            if JS.truthy (message body) then JS.String_undefined (message body)
            else if JS.truthy (detail body) then JS.String_undefined (detail body)
            else "HTTP " +:+ pretty (resp_status response)
        | None => "HTTP " +:+ pretty (resp_status response)
        end in
      let errors :=
        match d with
        | Some body =>
            match errors body with
            | Some fields => Some (FieldErrors fields)
            | None => Some (WholeBody body)
            end
        | None => None
        end in
      throw (ExnApi {| exn_message := message;
                       exn_status := Some (resp_status response);
                       exn_errors := errors |})
  | None =>
      if err_request error then
        throw (ExnApi {| exn_message := "Network error: No response received";
                         exn_status := None; exn_errors := None |})
      else
        throw (ExnApi {| exn_message := "Request error: " +:+ err_message error;
                         exn_status := None; exn_errors := None |})
  end.

(** axios turns an outcome into a fulfilled response (status 2xx) or a
    rejected [AxiosError]. *)
Definition settle (config : Config) (o : Outcome) : M AxiosResponse :=
  match o with
  | Responded status body =>
      let response :=
        {| resp_status := status; resp_data := body; resp_config := config |} in
      if (200 <=? status) && (status <? 300) then ret response
      else throw (ExnAxios {| err_config := config;
                              err_response := Some response;
                              err_request := true;
                              err_message := "Request failed with status code "
                                               +:+ pretty status |})
  | NoResponse =>
      throw (ExnAxios {| err_config := config; err_response := None;
                         err_request := true;
                         err_message := "Network Error" |})
  | SetupFailed reason =>
      throw (ExnAxios {| err_config := config; err_response := None;
                         err_request := false; err_message := reason |})
  end.

(** The global [axios.post(url, body)] of line 209: no interceptors. *)
Definition axios_post (full_url : string) (body : RequestBody) : M AxiosResponse :=
  let config :=
    {| method := "post"; url := full_url; data := body;
       headers := {["Content-Type" := "application/json"]};
       _retry := false |} in
  o ← dispatch {| req_method := method config; req_url := url config;
                   req_headers := headers config; req_body := data config |};
  settle config o.

(** [refreshToken()], lines 200-223. *)
Definition refreshToken : M bool :=
  ls ← get_localStorage;
  let refreshToken := TokenManager.getRefreshToken ls in
  if negb (JS.truthy refreshToken) then
    console_log "No refresh token available";;
    ret false
  else
    try_catch
      (console_log "Attempting to refresh access token...";;
       response ← axios_post (API_BASE_URL +:+ AUTH_REFRESH)
                     (RefreshBody (JS.String_null refreshToken));
       match resp_data response with
       | None => throw (ExnTypeError "Cannot read properties of null")
       | Some d =>
           let newRefreshToken :=
             JS.or_string (refresh d) (JS.String_null refreshToken) in
           modify_localStorage
             (TokenManager.setTokens (access d) (Some newRefreshToken)
                (JSON_stringify <$> user d));;
           console_log "Token refresh successful";;
           ret true
       end)
      (fun error =>
         console_log "Token refresh failed:";;
         ret false).

(** The rejected branch of the response interceptor, lines 160-180.
    [again] is [this.axiosInstance]. *)
Definition response_rejected (again : Config -> M AxiosResponse)
    (error : AxiosError) : M AxiosResponse :=
  let originalRequest := err_config error in
  let status := resp_status <$> err_response error in
  if bool_decide (status = Some 401) && negb (_retry originalRequest) then
    let originalRequest1 := set_retry true originalRequest in
    refreshed ← refreshToken;
    if refreshed : bool then
      ls ← get_localStorage;
      let newAccessToken := TokenManager.getAccessToken ls in
      let originalRequest2 :=
        set_header "Authorization"
          ("Bearer " +:+ JS.String_null newAccessToken) originalRequest1 in
      again originalRequest2
    else
      modify_localStorage TokenManager.clearTokens;;
      throw (ExnApi {| exn_message := "Authentication failed";
                       exn_status := Some 401; exn_errors := None |})
  else
    handleError error.

(** [this.axiosInstance(config)]: request interceptor, dispatch to
    [baseURL + url], response interceptors.  The only recursion is the
    retry inside [response_rejected]; [fuel] bounds its depth. *)
Fixpoint axiosInstance (fuel : nat) (config : Config) : M AxiosResponse :=
  match fuel with
  | O => fun w => (OutOfFuel, w)
  | S fuel' =>
      config1 ← request_interceptor config;
      o ← dispatch {| req_method := method config1;
                       req_url := API_BASE_URL +:+ url config1;
                       req_headers := headers config1;
                       req_body := data config1 |};
      try_catch (settle config1 o)
        (fun error =>
           match error with
           | ExnAxios e => response_rejected (axiosInstance fuel') e
           | other => throw other
           end)
  end.

(** [apiClient.post(endpoint, data)], lines 230-233. *)
Definition post (fuel : nat) (endpoint : string) (body : RequestBody)
    : M (option ResponseData) :=
  response ← axiosInstance fuel
                {| method := "post"; url := endpoint; data := body;
                   headers := {["Content-Type" := "application/json"]};
                   _retry := false |};
  ret (resp_data response).

(** auth.ts [AuthService.login], lines 70-95. *)
Definition login (fuel : nat) (credentials : LoginCredentials)
    : M ResponseData :=
  try_catch
    (response ← post fuel AUTH_LOGIN (CredentialsBody credentials);
     match response with
     | None => throw (ExnTypeError "Cannot read properties of null")
     | Some r =>
         if negb (JS.truthy (access r)) || negb (JS.truthy (refresh r))
            || negb (bool_decide (is_Some (user r)))
         then
           throw (ExnApi {| exn_message :=
                              "Invalid server response: missing required fields";
                            exn_status := None; exn_errors := None |})
         else
           modify_localStorage
             (TokenManager.setTokens (access r) (refresh r)
                (JSON_stringify <$> user r));;
           ret r
     end)
    (fun error =>
       modify_localStorage TokenManager.clearTokens;;
       if instanceof_ApiException error then throw error
       else throw (ExnApi {| exn_message := "Login failed. Please try again.";
                             exn_status := None; exn_errors := None |})).

(** auth.ts [AuthService.register], lines 100-117: the tokens of the
    response are stored as they come. *)
Definition register (fuel : nat) (registration : RegisterData) : M ResponseData :=
  try_catch
    (response ← post fuel AUTH_REGISTER (RegisterBody registration);
     match response with
     | None => throw (ExnTypeError "Cannot read properties of null")
     | Some r =>
         modify_localStorage
           (TokenManager.setTokens (access r) (refresh r)
              (JSON_stringify <$> user r));;
         mret r
     end)
    (fun error =>
       if instanceof_ApiException error then throw error
       else throw (ExnApi {| exn_message := "Registration failed. Please try again.";
                             exn_status := None; exn_errors := None |})).

(** auth.ts [AuthService.logout], lines 122-139. *)
Definition logout (fuel : nat) : M unit :=
  ls ← get_localStorage;
  let refreshToken := TokenManager.getRefreshToken ls in
  try_finally
    (try_catch
       (if JS.truthy refreshToken then
          post fuel AUTH_LOGOUT (LogoutBody (JS.String_null refreshToken));;
          mret tt
        else mret tt)
       (fun error => console_log "Logout request failed:"))
    (modify_localStorage TokenManager.clearTokens;;
     modify_localStorage (delete "user_settings")).

(** auth.ts [AuthService.refreshToken], lines 186-201. *)
Definition AuthService_refreshToken (fuel : nat) : M ResponseData :=
  ls ← get_localStorage;
  let refreshToken := TokenManager.getRefreshToken ls in
  if negb (JS.truthy refreshToken) then
    throw (ExnApi {| exn_message := "No refresh token available";
                     exn_status := None; exn_errors := None |})
  else
    response ← post fuel AUTH_REFRESH (RefreshBody (JS.String_null refreshToken));
    match response with
    | None => throw (ExnTypeError "Cannot read properties of null")
    | Some r =>
        modify_localStorage
          (TokenManager.setTokens (access r) (refresh r)
             (JSON_stringify <$> user r));;
        mret r
    end.

End Client.

End Api.

(** ** A concrete platform and concrete states, for running the model *)

Module Sample.

Definition token_message (text : string) : Chat.WSMessage :=
  {| Chat.type := Some "token"; Chat.message_id := Some "m1";
     Chat.token := Some text; Chat.content := None; Chat.chunks := None;
     Chat.timestamp := Some "2025-01-01T00:00:00Z"; Chat.message := None |}.

Definition complete_message (text : string) : Chat.WSMessage :=
  {| Chat.type := Some "response_complete"; Chat.message_id := Some "m1";
     Chat.token := None; Chat.content := Some text;
     Chat.chunks :=
       Some (Chat.ChunkArray
               [ Some {| Chat.page := Some 3%float; Chat.page_number := None |};
                 Some {| Chat.page := None; Chat.page_number := Some 1%float |};
                 Some {| Chat.page := Some 3%float; Chat.page_number := None |} ]);
     Chat.timestamp := Some "2025-01-01T00:00:01Z"; Chat.message := None |}.

(** A completed response whose [chunks] array holds a [null]. *)
Definition broken_message (text : string) : Chat.WSMessage :=
  {| Chat.type := Some "response_complete"; Chat.message_id := Some "m1";
     Chat.token := None; Chat.content := Some text;
     Chat.chunks := Some (Chat.ChunkArray [None]);
     Chat.timestamp := Some "2025-01-01T00:00:01Z"; Chat.message := None |}.

(** A stand-in for [JSON.parse] on a small wire format: ["T:text"] is a
    token message, ["D:text"] a completed response, ["B:text"] a completed
    response with a [null] chunk, ["null"] the value null; everything else
    is malformed. *)
Definition parse (text : string) : Chat.Parsed :=
  let rest := String.substring 2 (String.length text - 2) text in
  if String.prefix "T:" text then Chat.ParsedValue (token_message rest)
  else if String.prefix "D:" text then Chat.ParsedValue (complete_message rest)
  else if String.prefix "B:" text then Chat.ParsedValue (broken_message rest)
  else if String.eqb text "null" then Chat.ParsedNull
  else Chat.SyntaxError.

(** A stand-in for [JSON.stringify] that keeps the type, the text and
    the model. *)
Definition stringify (o : Chat.Outgoing) : string :=
  match o with
  | Chat.OutChat d =>
      Chat.chat_type d +:+ "|" +:+ Chat.chat_message d +:+ "|" +:+ Chat.chat_model d
  | Chat.OutSettings d => Chat.settings_type d
  end.

Definition platform : Chat.Platform :=
  {| Chat.VITE_WS_BASE_URL := None;
     Chat.JSON_parse := parse;
     Chat.JSON_stringify := stringify;
     Chat.WebSocket_rejects := fun _ => None |}.

#[local] Existing Instance platform.

Definition storage : gmap string string :=
  {[ TokenManager.ACCESS_TOKEN_KEY := "access-1" ]}.

(** ChatPanel's client before [connect()]. *)
Definition fresh : Chat.State ChatPanel.Panel :=
  Chat.new_client "chat-1" "doc-1" ChatPanel.handlers storage ChatPanel.initial.

(** The same client in a browser that holds no token. *)
Definition signed_out : Chat.State ChatPanel.Panel :=
  Chat.new_client "chat-1" "doc-1" ChatPanel.handlers ∅ ChatPanel.initial.

(** ... and once its first socket has opened. *)
Definition connected : Chat.State ChatPanel.Panel :=
  Eval vm_compute in Chat.run fresh [Chat.Call_connect; Chat.Ws_open 0%nat].

(** Handlers that write down their own names, every one installed. *)
Definition recording : Chat.Handlers (list string) :=
  {| Chat.onConnect := Some (fun u => u ++ ["onConnect"]);
     Chat.onDisconnect := Some (fun u => u ++ ["onDisconnect"]);
     Chat.onError := Some (fun u => u ++ ["onError"]);
     Chat.onToken := Some (fun _ u => (Normal tt, u ++ ["onToken"]));
     Chat.onResponseComplete :=
       Some (fun _ u => (Normal tt, u ++ ["onResponseComplete"]));
     Chat.onMessage := Some (fun _ u => (Normal tt, u ++ ["onMessage"]));
     Chat.onChatError := Some (fun _ u => (Normal tt, u ++ ["onChatError"])) |}.

Definition recorded : Chat.State (list string) :=
  Eval vm_compute in
    Chat.run (Chat.new_client "chat-1" "doc-1" recording storage [])
      [Chat.Call_connect; Chat.Ws_open 0%nat].

(** The connection has dropped and the reconnect timer is pending. *)
Definition waiting : Chat.State ChatPanel.Panel :=
  Eval vm_compute in Chat.step connected (Chat.Ws_close 0%nat 1006 "").

(** Five reconnections in a row have failed: the sixth socket has just
    been created and the counter stands at 5. *)
Definition exhausted : Chat.State ChatPanel.Panel :=
  Eval vm_compute in
    Chat.run connected
      [Chat.Ws_close 0%nat 1006 ""; Chat.Timer_fire 0%nat;
       Chat.Ws_close 1%nat 1006 ""; Chat.Timer_fire 0%nat;
       Chat.Ws_close 2%nat 1006 ""; Chat.Timer_fire 0%nat;
       Chat.Ws_close 3%nat 1006 ""; Chat.Timer_fire 0%nat;
       Chat.Ws_close 4%nat 1006 ""; Chat.Timer_fire 0%nat].

(** A second stand-in for [JSON.parse]: the text is the [type] of the
    message, whose [message] is "details". *)
Definition parse_type (text : string) : Chat.Parsed :=
  Chat.ParsedValue
    {| Chat.type := Some text; Chat.message_id := None; Chat.token := None;
       Chat.content := None; Chat.chunks := None; Chat.timestamp := None;
       Chat.message := Some "details" |}.

Definition typed_platform : Chat.Platform :=
  {| Chat.VITE_WS_BASE_URL := None;
     Chat.JSON_parse := parse_type;
     Chat.JSON_stringify := stringify;
     Chat.WebSocket_rejects := fun _ => None |}.

(** ChatPanel in the middle of a reply: generating, with text on display. *)
Definition streaming : Chat.State ChatPanel.Panel :=
  Chat.set_ui
    (ChatPanel.setIsGenerating true
       (ChatPanel.setStreamingMessage (fun _ => "The answer is") ChatPanel.initial))
    connected.

Definition zero_options : Chat.Options :=
  {| Chat.model := None; Chat.temperature := Some 0%float;
     Chat.max_tokens := Some 0%float |}.

End Sample.

(** ** A concrete server, for running the HTTP client *)

Module ApiSample.

Definition alice : Api.User :=
  {| Api.user_id := 7; Api.email := "alice@example.org";
     Api.first_name := "Alice"; Api.last_name := "Doe";
     Api.full_name := "Alice Doe"; Api.initials := "AD";
     Api.avatar := None; Api.avatar_url := None;
     Api.join_date := "2025-01-01"; Api.is_email_verified := true;
     Api.oauth_provider := None;
     Api.created_at := "2025-01-01"; Api.updated_at := "2025-01-02" |}.

Definition body (access refresh : option string) (user : option Api.User)
    : Api.ResponseData :=
  {| Api.access := access; Api.refresh := refresh; Api.user := user;
     Api.message := None; Api.detail := None; Api.errors := None |}.

(** A server that knows one session: the refresh endpoint trades
    "refresh-1" for the access token "access-2"; the registration endpoint
    answers 201 with no tokens; the logout endpoint is unreachable; the
    login endpoint accepts the password "secret"; every other endpoint
    wants "Bearer access-2". *)
Definition server (sent : list Api.Request) (r : Api.Request) : Api.Outcome :=
  if JS.includes Api.AUTH_REFRESH (Api.req_url r) then
    match Api.req_body r with
    | Api.RefreshBody "refresh-1" =>
        Api.Responded 200 (Some (body (Some "access-2") None None))
    | _ => Api.Responded 401 None
    end
  else if JS.includes Api.AUTH_REGISTER (Api.req_url r) then
    Api.Responded 201 (Some (body None None None))
  else if JS.includes Api.AUTH_LOGOUT (Api.req_url r) then
    Api.NoResponse
  else if JS.includes Api.AUTH_LOGIN (Api.req_url r) then
    match Api.req_body r with
    | Api.CredentialsBody c =>
        if String.eqb (Api.login_password c) "secret"
        then Api.Responded 200
               (Some (body (Some "access-3") (Some "refresh-3") (Some alice)))
        else Api.Responded 400 (Some (body None None None))
    | _ => Api.Responded 400 None
    end
  else
    match Api.req_headers r !! "Authorization" with
    | Some "Bearer access-2" => Api.Responded 200 (Some (body None None None))
    | _ => Api.Responded 401 None
    end.

Definition platform : Api.Platform :=
  {| Api.VITE_API_BASE_URL := None;
     Api.JSON_stringify := fun u => Api.email u;
     Api.adapter := server |}.

(** A server whose refresh endpoint hands out "access-2" to anyone and
    which answers 401 to everything else, whatever the token. *)
Definition locked_server (sent : list Api.Request) (r : Api.Request) : Api.Outcome :=
  if String.eqb (Api.req_url r) ("http://localhost:8000" +:+ Api.AUTH_REFRESH)
  then Api.Responded 200 (Some (body (Some "access-2") None None))
  else Api.Responded 401 None.

Definition locked_platform : Api.Platform :=
  {| Api.VITE_API_BASE_URL := None;
     Api.JSON_stringify := fun u => Api.email u;
     Api.adapter := locked_server |}.

(** A browser holding an expired access token and a refresh token. *)
Definition stale : Api.World :=
  {| Api.localStorage :=
       {[ TokenManager.ACCESS_TOKEN_KEY := "access-1";
          TokenManager.REFRESH_TOKEN_KEY := "refresh-1" ]};
     Api.requests := []; Api.console := [] |}.

(** ... and one whose refresh token the server does not know. *)
Definition revoked : Api.World :=
  {| Api.localStorage :=
       {[ TokenManager.ACCESS_TOKEN_KEY := "access-1";
          TokenManager.REFRESH_TOKEN_KEY := "refresh-0" ]};
     Api.requests := []; Api.console := [] |}.

Definition get_documents : Api.Config :=
  {| Api.method := "get"; Api.url := "/api/documents/"; Api.data := Api.NoBody;
     Api.headers := {["Content-Type" := "application/json"]};
     Api._retry := false |}.

Definition good_credentials : Api.LoginCredentials :=
  {| Api.login_email := "alice@example.org"; Api.login_password := "secret";
     Api.remember_me := None |}.

Definition registration : Api.RegisterData :=
  {| Api.register_email := "bob@example.org"; Api.register_password := "pw";
     Api.register_first_name := "Bob"; Api.register_last_name := "Roe";
     Api.password_confirm := "pw" |}.

(** A browser with nothing stored. *)
Definition empty : Api.World :=
  {| Api.localStorage := ∅; Api.requests := []; Api.console := [] |}.


End ApiSample.

(** ** Vocabulary for the statements *)

Module Wire.
Import Chat.




(** The channel is null or not in the OPEN state. *)
Definition not_open {U} (s : State U) : Prop :=
  ws s = None
  \/ exists sid w,
       ws s = Some sid /\ sockets s !! sid = Some w /\ readyState w <> OPEN.

(** The channel is the socket [sid], which is in the OPEN state and has
    been handed [frames] so far. *)
Definition open_with {U} (s : State U) (sid : nat) (frames : list string) : Prop :=
  exists w,
    ws s = Some sid /\ sockets s !! sid = Some w
    /\ readyState w = OPEN /\ sent w = frames.

(** The URL [connect()] opens: base, session, document, and the stored
    access token as a query parameter. *)
Definition channel_url `{Platform} {U} (s : State U) : string :=
  API_WS_BASE_URL +:+ "/ws/chat/" +:+ chatId s +:+ "/document/"
    +:+ documentId s +:+ "/?token="
    +:+ JS.String_null (TokenManager.getAccessToken (localStorage s)).

(** The channel reference is null or within the sockets created. *)
Definition channel_in_range {U} (s : State U) : Prop :=
  match ws s with
  | Some sid => (sid < length (sockets s))%nat
  | None => True
  end.

(** The five message types the client only logs. *)
Definition informational (t : string) : Prop :=
  t = "connection" \/ t = "message_saved" \/ t = "response_start"
  \/ t = "chunks_retrieved" \/ t = "settings_updated".

(** The frames handed to socket [sid] so far. *)
Definition frames_of {U} (s : State U) (sid : nat) : list string :=
  match sockets s !! sid with
  | Some w => sent w
  | None => []
  end.

End Wire.

Module PageNumbers.




End PageNumbers.

Module Http.
Import Api.

(** The request [refreshToken()] posts when localStorage holds a refresh
    token. *)
Definition refresh_request `{Platform} (w : World) : Request :=
  {| req_method := "post";
     req_url := API_BASE_URL +:+ AUTH_REFRESH;
     req_headers := {["Content-Type" := "application/json"]};
     req_body :=
       RefreshBody (JS.String_null (TokenManager.getRefreshToken (localStorage w))) |}.

(** The request the instance sends first for [config] in the world [w]. *)
Definition original `{Platform} (config : Config) (w : World) : Request :=
  wire (prepare (localStorage w) config).

(** The request [apiClient.post(endpoint, body)] sends first in the world
    [w]. *)
Definition posted `{Platform} (endpoint : string) (body : RequestBody) (w : World)
    : Request :=
  original {| method := "post"; url := endpoint; data := body;
              headers := {["Content-Type" := "application/json"]};
              _retry := false |} w.

(** The requests an attempt with outcome [o] puts on the wire: the request
    itself, or nothing when the attempt failed before it was sent. *)
Definition sent_by (r : Request) (o : Outcome) : list Request :=
  match o with
  | SetupFailed _ => []
  | _ => [r]
  end.

(** What a refresh attempted in the world [w] brings: the body of the
    server's answer to the refresh request, when a refresh token is stored
    and the answer is a 2xx with a body; nothing otherwise. *)
Definition refresh_reply `{Platform} (w : World) : option ResponseData :=
  if JS.truthy (TokenManager.getRefreshToken (localStorage w)) then
    match adapter (requests w) (refresh_request w) with
    | Responded status (Some d) =>
        if (200 <=? status) && (status <? 300) then Some d else None
    | _ => None
    end
  else None.

(** The requests a refresh attempted in the world [w] puts on the wire:
    the refresh request when a refresh token is stored, nothing
    otherwise. *)
Definition refresh_traffic `{Platform} (w : World) : list Request :=
  if JS.truthy (TokenManager.getRefreshToken (localStorage w))
  then sent_by (refresh_request w) (adapter (requests w) (refresh_request w))
  else [].

(** Every credential the client keeps in localStorage is gone. *)
Definition credentials_cleared (w : World) : Prop :=
  localStorage w !! TokenManager.ACCESS_TOKEN_KEY = None
  /\ localStorage w !! TokenManager.REFRESH_TOKEN_KEY = None
  /\ localStorage w !! TokenManager.USER_KEY = None
  /\ localStorage w !! TokenManager.AUTH_STORE_KEY = None.

Definition authentication_failed : Exn :=
  ExnApi {| exn_message := "Authentication failed";
            exn_status := Some 401; exn_errors := None |}.

(** Calls of [refreshToken()] so far: each writes exactly one of these two
    lines first. *)
Definition is_refresh_attempt (line : string) : bool :=
  String.eqb line "No refresh token available"
  || String.eqb line "Attempting to refresh access token...".

Definition refresh_attempts (w : World) : nat :=
  length (List.filter is_refresh_attempt (console w)).

(** The call ended: it returned or threw. *)
Definition settled {A} (r : Result A) : Prop :=
  match r with
  | OutOfFuel => False
  | _ => True
  end.

(** [retry] is [first] sent again with the access token now stored. *)
Definition is_retry_of (first retry : Request) (w : World) : Prop :=
  req_method retry = req_method first
  /\ req_url retry = req_url first
  /\ req_body retry = req_body first
  /\ req_headers retry !! "Authorization"
     = Some ("Bearer " +:+
               JS.String_null (TokenManager.getAccessToken (localStorage w))).

End Http.

(** * Properties *)

(** ** Strings *)



(** ** The chat client, field by field *)

Module ChatFacts.
Import Chat.

Ltac unfold_client :=
  unfold step, onopen, onclose, onerror, onmessage, onmessage_try,
    handleMessage, reconnect_callback, connect, disconnect, sendMessage,
    updateSettings, ws_send, open_socket, call0, call1, log, setTimeout,
    emit in *.

Ltac cases := repeat (case_match; simplify_eq; simpl in *; try done).

Section Facts.
Context {U : Type} `{Platform}.
Implicit Types (s : State U) (e : Event).

(** The flag after a step: [disconnect()] raises it, nothing else
    writes it. *)
Lemma step_flag s e :
  isIntentionallyClosed (step s e) =
  match e with
  | Call_disconnect => true
  | _ => isIntentionallyClosed s
  end.
Proof. destruct e; unfold_client; simpl; cases. Qed.

Lemma run_snoc s es e : run s (es ++ [e]) = step (run s es) e.
Proof. unfold run. now rewrite fold_left_app. Qed.

Lemma run_cons s e es : run s (e :: es) = run (step s e) es.
Proof. reflexivity. Qed.

Lemma run_flag_stays s es :
  isIntentionallyClosed s = true ->
  isIntentionallyClosed (run s es) = true.
Proof.
  revert s. induction es as [|e es IH]; intros s Hs; [exact Hs|].
  rewrite run_cons. apply IH. rewrite step_flag. now destruct e.
Qed.

(** A close event, whatever its code, schedules nothing once the flag
    is up. *)
Lemma close_when_flagged s sid code reason :
  isIntentionallyClosed s = true ->
  timers (step s (Ws_close sid code reason)) = timers s.
Proof.
  intros Hs. simpl. destruct (sockets s !! sid); [|reflexivity].
  unfold_client. simpl.
  destruct (onDisconnect (handlers s)); simpl; rewrite Hs; reflexivity.
Qed.

(** A close event on a live socket with the flag down and the budget
    not used up schedules exactly one timer, whose delay is the
    interval times the number of attempts made so far. *)
Lemma close_schedules s sid code reason :
  is_Some (sockets s !! sid) ->
  isIntentionallyClosed s = false ->
  reconnectAttempts s < maxReconnectAttempts ->
  timers (step s (Ws_close sid code reason)) =
  timers s ++ [reconnectInterval * reconnectAttempts s].
Proof.
  intros [w Hw] Hflag Hlt. simpl. rewrite Hw.
  unfold_client. simpl.
  assert ((reconnectAttempts s <? maxReconnectAttempts) = true) as Hb
    by (apply Z.ltb_lt; exact Hlt).
  destruct (onDisconnect (handlers s)); simpl; rewrite Hflag, Hb; reflexivity.
Qed.

(** What an error event leaves alone. *)
Lemma error_frame s sid :
  reconnectAttempts (step s (Ws_error sid)) = reconnectAttempts s
  /\ timers (step s (Ws_error sid)) = timers s
  /\ sockets (step s (Ws_error sid)) = sockets s
  /\ ws (step s (Ws_error sid)) = ws s.
Proof. unfold_client. simpl. cases. Qed.

End Facts.
End ChatFacts.

(** ** Reconnection *)

Module Reconnect.
Import Chat ChatFacts.

Section WithClient.
Context {U : Type} `{Platform}.
Implicit Types (s : State U).


(** C3: once [disconnect()] has been called, whatever happens next, a
    close event with any code schedules no reconnection. *)
Theorem C3_no_reconnect_after_disconnect s es sid code reason :
  timers (step (run (step s Call_disconnect) es) (Ws_close sid code reason))
  = timers (run (step s Call_disconnect) es).
Proof.
  apply close_when_flagged. apply run_flag_stays. now rewrite step_flag.
Qed.

(** C7: an error event on a socket of the client runs [onError] (here
    installed as [f]) and rejects the pending promise, and leaves the
    flag, the counter and the timers as they were; so a close that
    follows with the flag down and the budget not used up still
    schedules its reconnection, with the delay the close handler always
    uses.  No step other than a call of [disconnect()] changes the
    flag. *)
Theorem C7_error_does_not_suppress_reconnect s sid f code reason :
  is_Some (sockets s !! sid) ->
  onError (handlers s) = Some f ->
  let s1 := step s (Ws_error sid) in
  trace s1 = trace s ++ [console_error "WebSocket error:";
                         console_error "WebSocket error details:";
                         call_onError;
                         promise_reject sid "WebSocket connection failed"]
  /\ ui s1 = f (ui s)
  /\ isIntentionallyClosed s1 = isIntentionallyClosed s
  /\ (isIntentionallyClosed s = false ->
      reconnectAttempts s < maxReconnectAttempts ->
      timers (step s1 (Ws_close sid code reason))
      = timers s ++ [reconnectInterval * reconnectAttempts s])
  /\ (forall s' e,
        isIntentionallyClosed (step s' e) <> isIntentionallyClosed s' ->
        e = Call_disconnect).
Proof.
  intros [w Hw] Hf s1. subst s1.
  destruct (error_frame s sid) as (Hr & Ht & Hs & _).
  repeat split.
  - simpl. rewrite Hw. unfold_client. simpl. rewrite Hf. simpl.
    rewrite <- !app_assoc. reflexivity.
  - simpl. rewrite Hw. unfold_client. simpl. rewrite Hf. reflexivity.
  - exact (step_flag s (Ws_error sid)).
  - intros Hflag Hlt.
    rewrite close_schedules.
    + now rewrite Ht, Hr.
    + rewrite Hs. eauto.
    + exact (eq_trans (step_flag s (Ws_error sid)) Hflag).
    + now rewrite Hr.
  - intros s' e Hne. rewrite step_flag in Hne. destruct e; congruence.
Qed.

(** C8: after [disconnect()] the flag stays up through every later
    event, through a new call of [connect()], and through everything
    that follows it; a close of the new connection schedules nothing. *)
Theorem C8_disconnect_is_permanent s es1 es2 sid code reason :
  let s1 := run (disconnect s) es1 in
  let s2 := snd (connect s1) in
  let s3 := run s2 es2 in
  isIntentionallyClosed s1 = true
  /\ isIntentionallyClosed s2 = true
  /\ isIntentionallyClosed s3 = true
  /\ timers (step s3 (Ws_close sid code reason)) = timers s3.
Proof.
  intros s1 s2 s3.
  assert (isIntentionallyClosed s1 = true) as H1.
  { apply run_flag_stays. exact (step_flag s Call_disconnect). }
  assert (isIntentionallyClosed s2 = true) as H2.
  { subst s2. rewrite <- H1. exact (step_flag s1 Call_connect). }
  assert (isIntentionallyClosed s3 = true) as H3.
  { apply run_flag_stays. exact H2. }
  repeat split; try assumption.
  apply close_when_flagged. exact H3.
Qed.

End WithClient.

#[local] Existing Instance Sample.platform.

(** The scenario of C8 on ChatPanel's client: disconnect, connect again,
    the new socket opens and then closes with code 1006; the socket was
    really created and opened, and no timer is pending. *)
Example disconnect_then_connect_then_close :
  let s := run Sample.connected
             [Call_disconnect; Ws_close 0%nat 1000 ""; Call_connect;
              Ws_open 1%nat] in
  ws s = Some 1%nat
  /\ readyState <$> sockets s !! 1%nat = Some OPEN
  /\ isIntentionallyClosed s = true
  /\ timers (step s (Ws_close 1%nat 1006 "")) = [].
Proof. vm_compute. repeat split. Qed.

Lemma C7_error_does_not_suppress_reconnect_witness :
  isIntentionallyClosed (step Sample.recorded (Ws_error 0%nat)) = false
  /\ timers (step (step Sample.recorded (Ws_error 0%nat)) (Ws_close 0%nat 1006 ""))
     = [0].
Proof.
  destruct (C7_error_does_not_suppress_reconnect Sample.recorded 0%nat
              (fun u => u ++ ["onError"]) 1006 "")
    as (_ & _ & Hflag & Hclose & _).
  - vm_compute. eauto.
  - reflexivity.
  - split.
    + rewrite Hflag. reflexivity.
    + rewrite Hclose by (vm_compute; reflexivity). reflexivity.
Defined.



End Reconnect.

(** ** Sending *)

Module Sending.
Import Chat ChatFacts Wire.

Section WithClient.
Context {U : Type} `{Platform}.
Implicit Types (s : State U).

Lemma not_open_guard s : not_open s -> open_socket s = None.
Proof.
  intros [Hnull | (sid & w & Hws & Hw & Hstate)]; unfold open_socket.
  - now rewrite Hnull.
  - rewrite Hws, Hw. now destruct (readyState w).
Qed.

Lemma open_guard s sid frames : open_with s sid frames -> open_socket s = Some sid.
Proof.
  intros (w & Hws & Hw & Hstate & _). unfold open_socket.
  now rewrite Hws, Hw, Hstate.
Qed.

(** C4: on a channel that is null or not OPEN, [sendMessage] and
    [updateSettings] throw and leave the client and the browser exactly
    as they were: no frame is handed to any socket and nothing is kept
    for later. *)
Theorem C4_send_requires_open_channel s message options settings :
  not_open s ->
  sendMessage message options s = (Throw "WebSocket is not connected", s)
  /\ updateSettings settings s = (Throw "WebSocket is not connected", s).
Proof.
  intros Hclosed. apply not_open_guard in Hclosed.
  unfold sendMessage, updateSettings. now rewrite Hclosed.
Qed.

(** C9: on an open channel [sendMessage] returns normally and hands the
    socket exactly one more frame, the serialisation of a
    'chat_message' carrying the text; model, temperature and
    max_tokens are the given ones when truthy and 'standard', 0.7 and
    2048 when absent or falsy, so that a temperature of 0 and a
    max_tokens of 0 are replaced too. *)
Theorem C9_send_fills_in_defaults s sid frames message options :
  open_with s sid frames ->
  exists data s1,
    sendMessage message options s = (Normal tt, s1)
    /\ open_with s1 sid (frames ++ [JSON_stringify (OutChat data)])
    /\ chat_type data = "chat_message"
    /\ chat_message data = message
    /\ chat_model data =
         match model options with
         | Some m => if String.eqb m "" then "standard" else m
         | None => "standard"
         end
    /\ chat_temperature data =
         match temperature options with
         | Some x => if JS.truthy_number x then x else 0.7%float
         | None => 0.7%float
         end
    /\ chat_max_tokens data =
         match max_tokens options with
         | Some x => if JS.truthy_number x then x else 2048%float
         | None => 2048%float
         end
    /\ (temperature options = Some 0%float -> chat_temperature data = 0.7%float)
    /\ (max_tokens options = Some 0%float -> chat_max_tokens data = 2048%float).
Proof.
  intros Hopen. pose proof (open_guard _ _ _ Hopen) as Hguard.
  destruct Hopen as (w & Hws & Hw & Hstate & Hsent).
  unfold sendMessage. rewrite Hguard.
  eexists _, _. split; [reflexivity|].
  split.
  { exists (WebSocket_send
              (JSON_stringify
                 (OutChat
                    {| chat_type := "chat_message"; chat_message := message;
                       chat_model := JS.or_string (model options) "standard";
                       chat_temperature :=
                         JS.or_number (temperature options) 0.7%float;
                       chat_max_tokens :=
                         JS.or_number (max_tokens options) 2048%float |})) w).
    unfold ws_send. simpl. repeat split; try assumption.
    - rewrite list_lookup_alter_eq, Hw. reflexivity.
    - now rewrite Hsent. }
  simpl. repeat split.
  - unfold JS.or_string, JS.truthy_string.
    destruct (model options) as [m|]; [|reflexivity].
    now destruct (String.eqb m "").
  - intros Ht. now rewrite Ht.
  - intros Ht. now rewrite Ht.
Qed.

End WithClient.

#[local] Existing Instance Sample.platform.

Lemma C4_send_requires_open_channel_witness :
  not_open Sample.fresh
  /\ sendMessage "hello" Sample.zero_options Sample.fresh
     = (Throw "WebSocket is not connected", Sample.fresh).
Proof.
  assert (not_open Sample.fresh) as Hclosed by (left; reflexivity).
  split; [exact Hclosed|].
  apply (C4_send_requires_open_channel Sample.fresh "hello" Sample.zero_options
           Sample.zero_options Hclosed).
Defined.

Lemma C9_send_fills_in_defaults_witness :
  open_with Sample.connected 0%nat []
  /\ exists data s1,
       sendMessage "hello" Sample.zero_options Sample.connected = (Normal tt, s1)
       /\ chat_temperature data = 0.7%float
       /\ chat_max_tokens data = 2048%float.
Proof.
  assert (open_with Sample.connected 0%nat []) as Hopen.
  { eexists. vm_compute. repeat split. }
  split; [exact Hopen|].
  destruct (C9_send_fills_in_defaults Sample.connected 0%nat [] "hello"
              Sample.zero_options Hopen)
    as (data & s1 & Hsend & _ & _ & _ & _ & _ & _ & Ht & Hm).
  exists data, s1. repeat split.
  - exact Hsend.
  - apply Ht. reflexivity.
  - apply Hm. reflexivity.
Defined.

End Sending.

(** ** Receiving *)

Module Streaming.
Import Chat ChatFacts Wire.

Section AnyHandlers.
Context {U : Type} `{Platform}.
Implicit Types (s : State U).

(** C5: a payload that is not valid JSON makes the message handler
    return normally, having done nothing but write one line on the
    error console: no handler is called, and the client's fields, the
    sockets, the timers and the handlers' state are as before. *)
Theorem C5_malformed_payload_is_dropped s sid payload :
  JSON_parse payload = SyntaxError ->
  onmessage payload s =
    (Normal tt,
     set_trace (trace s ++ [console_error "Failed to parse WebSocket message:"]) s)
  /\ let s1 := step s (Ws_message sid payload) in
     List.filter is_callback (trace s1) = List.filter is_callback (trace s)
     /\ ui s1 = ui s
     /\ reconnectAttempts s1 = reconnectAttempts s
     /\ isIntentionallyClosed s1 = isIntentionallyClosed s
     /\ ws s1 = ws s
     /\ sockets s1 = sockets s
     /\ timers s1 = timers s.
Proof.
  intros Hbad.
  assert (onmessage payload s =
            (Normal tt,
             set_trace
               (trace s ++ [console_error "Failed to parse WebSocket message:"]) s))
    as Hcatch.
  { unfold onmessage, onmessage_try. rewrite Hbad. reflexivity. }
  split; [exact Hcatch|].
  cbn [step]. destruct (sockets s !! sid) as [w|]; [|repeat split].
  rewrite Hcatch. cbn [snd].
  repeat split. simpl.
  rewrite List.filter_app. simpl. apply app_nil_r.
Qed.

End AnyHandlers.

Section WithChatPanel.
Context `{Platform}.
Implicit Types (s : State ChatPanel.Panel).






End WithChatPanel.

#[local] Existing Instance Sample.platform.

Lemma C5_malformed_payload_is_dropped_witness :
  JSON_parse "{not json" = SyntaxError
  /\ onmessage "{not json" Sample.connected =
       (Normal tt,
        set_trace
          (trace Sample.connected
             ++ [console_error "Failed to parse WebSocket message:"])
          Sample.connected).
Proof.
  assert (JSON_parse "{not json" = SyntaxError) as Hbad by reflexivity.
  split; [exact Hbad|].
  apply (C5_malformed_payload_is_dropped Sample.connected 0%nat "{not json" Hbad).
Defined.



End Streaming.

(** ** The HTTP client *)

Module HttpFacts.
Import Api Http.

Ltac run_monad :=
  unfold mbind, M_bind, bind, mret, M_ret, ret, throw, try_catch, try_finally,
    get_localStorage, modify_localStorage, console_log, dispatch in *.

Section Facts.
Context `{Platform}.
Implicit Types (w : World) (config : Config).

Lemma prepare_retry ls config : _retry (prepare ls config) = _retry config.
Proof. unfold prepare. repeat case_match; reflexivity. Qed.

Lemma prepare_wire ls config :
  req_method (wire (prepare ls config)) = method config
  /\ req_url (wire (prepare ls config)) = API_BASE_URL +:+ url config
  /\ req_body (wire (prepare ls config)) = data config.
Proof. unfold prepare. repeat case_match; repeat split. Qed.

Lemma prepare_fields ls config :
  method (prepare ls config) = method config
  /\ url (prepare ls config) = url config
  /\ data (prepare ls config) = data config.
Proof. unfold prepare. repeat case_match; repeat split. Qed.

(** The Authorization header on the wire when the config already carries
    the stored token. *)
Lemma prepare_authorization ls config :
  headers config !! "Authorization"
  = Some ("Bearer " +:+ JS.String_null (TokenManager.getAccessToken ls)) ->
  req_headers (wire (prepare ls config)) !! "Authorization"
  = Some ("Bearer " +:+ JS.String_null (TokenManager.getAccessToken ls)).
Proof.
  intros Hh. unfold prepare, wire, set_header. simpl.
  repeat case_match; simpl;
    rewrite ?lookup_insert_ne by discriminate;
    rewrite ?lookup_insert_eq; auto.
Qed.

Lemma settle_cases config o w :
  (exists response,
      settle config o w = (Returned response, w)
      /\ resp_config response = config)
  \/ (exists error,
        settle config o w = (Thrown (ExnAxios error), w)
        /\ err_config error = config
        /\ resp_status <$> err_response error
           = match o with Responded status _ => Some status | _ => None end).
Proof.
  unfold settle. destruct o as [status body| |reason]; run_monad.
  - destruct ((200 <=? status) && (status <? 300)); [left|right]; eauto.
  - right. eauto.
  - right. eauto.
Qed.

Lemma settle_401 config body w :
  exists error,
    settle config (Responded 401 body) w = (Thrown (ExnAxios error), w)
    /\ err_config error = config
    /\ resp_status <$> err_response error = Some 401.
Proof. eexists. unfold settle. simpl. run_monad. repeat split. Qed.

(** [handleError] throws an [ApiException] and touches nothing. *)
Lemma handleError_throws {A} error w :
  exists e, handleError (A:=A) error w = (Thrown (ExnApi e), w).
Proof.
  unfold handleError. run_monad.
  destruct (err_response error); [eauto|].
  destruct (err_request error); eauto.
Qed.

(** ... and the exception carries the status of the response, if any. *)
Lemma handleError_status {A} error w :
  exists e,
    handleError (A:=A) error w = (Thrown (ExnApi e), w)
    /\ exn_status e = resp_status <$> err_response error.
Proof.
  unfold handleError. run_monad.
  destruct (err_response error); [eauto|].
  destruct (err_request error); eauto.
Qed.

Lemma refresh_attempts_app w lines :
  length (List.filter is_refresh_attempt (console w ++ lines))
  = (refresh_attempts w + length (List.filter is_refresh_attempt lines))%nat.
Proof. unfold refresh_attempts. now rewrite List.filter_app, length_app. Qed.

Lemma dispatched_fields r w :
  localStorage (dispatched r w) = localStorage w
  /\ console (dispatched r w) = console w
  /\ requests (dispatched r w) = requests w ++ sent_by r (adapter (requests w) r).
Proof.
  unfold dispatched, sent_by.
  destruct (adapter (requests w) r); simpl; rewrite ?app_nil_r; repeat split.
Qed.

Lemma dispatched_answered r w status body :
  adapter (requests w) r = Responded status body ->
  dispatched r w = add_request r w.
Proof. unfold dispatched. now intros ->. Qed.

(** [refreshToken()] always returns, and counts as one attempt.  It
    answers [true] exactly when a refresh token is stored and the server
    answers the refresh request with a 2xx body; it then has stored the new
    access token, the new refresh token if the body has one and the old one
    otherwise, and the user if the body has one.  When it answers [false]
    localStorage is as before. *)
Lemma refreshToken_exact w :
  match refresh_reply w with
  | Some d =>
      exists w1,
        refreshToken w = (Returned true, w1)
        /\ requests w1 = requests w ++ [refresh_request w]
        /\ refresh_attempts w1 = S (refresh_attempts w)
        /\ localStorage w1 =
             TokenManager.setTokens (access d)
               (Some (JS.or_string (refresh d)
                        (JS.String_null
                           (TokenManager.getRefreshToken (localStorage w)))))
               (JSON_stringify <$> user d) (localStorage w)
  | None =>
      exists w1,
        refreshToken w = (Returned false, w1)
        /\ requests w1 = requests w ++ refresh_traffic w
        /\ refresh_attempts w1 = S (refresh_attempts w)
        /\ localStorage w1 = localStorage w
  end.
Proof.
  unfold refresh_reply, refresh_traffic, refreshToken, axios_post, settle,
    refresh_request, refresh_attempts, dispatched, sent_by.
  run_monad. unfold dispatch, dispatched, sent_by. simpl.
  repeat case_match; simplify_eq; simpl in *; try congruence;
    (eexists; split; [reflexivity|]); simpl;
    rewrite <- ?app_assoc, ?app_nil_r, ?List.filter_app, ?length_app; simpl;
    repeat split; try reflexivity; try lia.
  congruence.
Qed.

(** When a refresh token is stored and the server answers the refresh
    request with a 2xx body, [refreshToken()] answers [true]. *)
Lemma refreshToken_succeeds w status d :
  JS.truthy (TokenManager.getRefreshToken (localStorage w)) = true ->
  adapter (requests w) (refresh_request w) = Responded status (Some d) ->
  200 <= status < 300 ->
  exists w1,
    refreshToken w = (Returned true, w1)
    /\ requests w1 = requests w ++ [refresh_request w]
    /\ localStorage w1 =
         TokenManager.setTokens (access d)
           (Some (JS.or_string (refresh d)
                    (JS.String_null (TokenManager.getRefreshToken (localStorage w)))))
           (JSON_stringify <$> user d) (localStorage w).
Proof.
  intros Hstored Hout Hrange.
  assert ((200 <=? status) && (status <? 300) = true) as Hok.
  { apply andb_true_iff. split; [apply Z.leb_le|apply Z.ltb_lt]; lia. }
  pose proof (refreshToken_exact w) as Hexact.
  unfold refresh_reply in Hexact. rewrite Hstored, Hout, Hok in Hexact.
  destruct Hexact as (w1 & Hrun & Hreq & _ & Hls). eauto.
Qed.

(** One round of the instance: interceptor, dispatch, and what the
    response interceptors make of the outcome. *)
Lemma axiosInstance_round fuel config w :
  axiosInstance (S fuel) config w =
  match settle (prepare (localStorage w) config)
          (adapter (requests w) (original config w))
          (dispatched (original config w) w) with
  | (Thrown (ExnAxios e), w1) => response_rejected (axiosInstance fuel) e w1
  | r => r
  end.
Proof.
  cbn [axiosInstance]. unfold request_interceptor, original. run_monad.
  cbn beta iota.
  destruct (settle _ _ _) as [[response|[e|e|text]|] w1]; reflexivity.
Qed.

(** A round with no refresh: the request was already retried, or the
    outcome is not a 401.  The request is handed to the transport once and
    only the request log can change. *)
Lemma single_round fuel config w :
  _retry config = true
  \/ (forall body, adapter (requests w) (original config w) <> Responded 401 body) ->
  exists result,
    axiosInstance (S fuel) config w = (result, dispatched (original config w) w)
    /\ ((exists response, result = Returned response)
        \/ (exists e, result = Thrown (ExnApi e))).
Proof.
  intros Hwhy. rewrite axiosInstance_round.
  destruct (settle_cases (prepare (localStorage w) config)
              (adapter (requests w) (original config w))
              (dispatched (original config w) w))
    as [(response & Hs & _) | (error & Hs & Hc & Hst)]; rewrite Hs.
  - eauto.
  - unfold response_rejected.
    assert (bool_decide (resp_status <$> err_response error = Some 401)
            && negb (_retry (err_config error)) = false) as ->.
    { destruct Hwhy as [Hretry|Hother].
      - rewrite Hc, prepare_retry, Hretry. apply andb_false_r.
      - rewrite Hst. apply andb_false_iff. left.
        apply bool_decide_eq_false_2.
        destruct (adapter (requests w) (original config w)) as [status body| |reason];
          [|discriminate..].
        intros [= ->]. exact (Hother body eq_refl). }
    destruct (handleError_throws (A:=AxiosResponse) error
                (dispatched (original config w) w)) as [e He].
    rewrite He. eauto.
Qed.

(** A request already marked as retried is handed to the transport once
    and is never refreshed. *)
Lemma retried_round fuel config w :
  _retry config = true ->
  exists result,
    axiosInstance (S fuel) config w = (result, dispatched (original config w) w)
    /\ ((exists response, result = Returned response)
        \/ (exists e, result = Thrown (ExnApi e))).
Proof. intros Hretry. apply single_round. now left. Qed.

(** What happens to a request not yet retried that is answered 401. *)
Lemma unauthorized_round fuel config w body :
  _retry config = false ->
  adapter (requests w) (original config w) = Responded 401 body ->
  exists result w_end,
    axiosInstance (S (S fuel)) config w = (result, w_end)
    /\ ((exists response, result = Returned response)
        \/ (exists e, result = Thrown (ExnApi e)))
    /\ refresh_attempts w_end = S (refresh_attempts w)
    /\ match refresh_reply (add_request (original config w) w) with
       | None =>
           result = Thrown authentication_failed
           /\ credentials_cleared w_end
           /\ requests w_end =
                requests w ++ original config w ::
                  refresh_traffic (add_request (original config w) w)
       | Some d =>
           TokenManager.getAccessToken (localStorage w_end)
           = Some (JS.String_undefined (access d))
           /\ exists retry,
                is_retry_of (original config w) retry w_end
                /\ requests w_end =
                     requests w ++ [original config w; refresh_request w]
                       ++ sent_by retry
                            (adapter
                               (requests w ++ [original config w; refresh_request w])
                               retry)
       end.
Proof.
  intros Hretry Hout.
  rewrite axiosInstance_round, Hout.
  rewrite (dispatched_answered _ _ _ _ Hout).
  destruct (settle_401 (prepare (localStorage w) config) body
              (add_request (original config w) w)) as (error & Hs & Hc & Hst).
  rewrite Hs. unfold response_rejected.
  rewrite Hst, Hc, prepare_retry, Hretry.
  rewrite bool_decide_eq_true_2 by reflexivity. cbn [andb negb].
  pose proof (refreshToken_exact (add_request (original config w) w)) as Hexact.
  destruct (refresh_reply (add_request (original config w) w)) as [d|].
  - (* the refresh succeeded: one retry, marked as retried *)
    destruct Hexact as (w1 & Hrun & Hreq & Hcount & Hls).
    run_monad. rewrite Hrun.
    set (again :=
           set_header "Authorization"
             ("Bearer " +:+ JS.String_null (TokenManager.getAccessToken (localStorage w1)))
             (set_retry true (prepare (localStorage w) config))).
    destruct (retried_round fuel again w1 eq_refl) as (result & Hagain & Hres).
    rewrite Hagain.
    destruct (dispatched_fields (original again w1) w1) as (Hdl & Hdc & Hdr).
    exists result, (dispatched (original again w1) w1).
    split; [reflexivity|]. split; [exact Hres|].
    split.
    { unfold refresh_attempts in *. rewrite Hdc. exact Hcount. }
    split.
    { rewrite Hdl, Hls.
      unfold TokenManager.setTokens, TokenManager.getAccessToken.
      destruct (JSON_stringify <$> user d); cbn zeta;
        rewrite ?lookup_insert_ne by discriminate;
        apply lookup_insert_eq. }
    exists (original again w1). split.
    + unfold is_retry_of. rewrite Hdl. unfold original.
      destruct (prepare_wire (localStorage w1) again) as (Hm & Hu & Hb).
      destruct (prepare_wire (localStorage w) config) as (Hm0 & Hu0 & Hb0).
      rewrite Hm, Hu, Hb, Hm0, Hu0, Hb0.
      destruct (prepare_fields (localStorage w) config) as (Hm1 & Hu1 & Hb1).
      unfold again at 1 2 3. cbn [method url data set_header set_retry].
      rewrite Hm1, Hu1, Hb1. repeat split.
      apply prepare_authorization. unfold again, set_header. cbn [headers].
      apply lookup_insert_eq.
    + rewrite Hdr, Hreq. cbn [requests add_request].
      unfold refresh_request. cbn [localStorage add_request].
      rewrite <- !app_assoc. reflexivity.
  - (* the refresh failed: credentials cleared, 401 thrown *)
    destruct Hexact as (w1 & Hrun & Hreq & Hcount & Hls).
    run_monad. rewrite Hrun.
    eexists _, _. split; [reflexivity|]. split; [right; eauto|].
    split; [exact Hcount|].
    split; [reflexivity|]. split.
    + unfold credentials_cleared, TokenManager.clearTokens. cbn [localStorage].
      repeat split; rewrite ?lookup_delete_ne by discriminate;
        apply lookup_delete_eq.
    + cbn [requests]. rewrite Hreq. cbn [requests add_request].
      rewrite <- app_assoc. reflexivity.
Qed.

(** A round either involves no refresh or is a first 401. *)
Lemma classic_round config w :
  (_retry config = true
   \/ (forall body, adapter (requests w) (original config w) <> Responded 401 body))
  \/ (exists body,
        _retry config = false
        /\ adapter (requests w) (original config w) = Responded 401 body).
Proof.
  destruct (_retry config); [left; now left|].
  destruct (adapter (requests w) (original config w)) as [status body| |reason];
    [|left; right; discriminate..].
  destruct (decide (status = 401)) as [->|Hstatus].
  - right. eauto.
  - left. right. congruence.
Qed.

(** Every call of the instance ends with the response or with an
    [ApiException].  When the first attempt fails before it is sent,
    nothing is sent at all; otherwise the original request is sent,
    followed by at most two more. *)
Lemma axiosInstance_outcomes fuel config w :
  exists result w_end sent,
    axiosInstance (S (S fuel)) config w = (result, w_end)
    /\ ((exists response, result = Returned response)
        \/ (exists e, result = Thrown (ExnApi e)))
    /\ requests w_end = requests w ++ sent
    /\ match adapter (requests w) (original config w) with
       | SetupFailed _ => sent = []
       | _ => exists rest,
                sent = original config w :: rest /\ (length rest <= 2)%nat
       end.
Proof.
  destruct (classic_round config w) as [Hsingle|(body & Hretry & Hout)].
  - destruct (single_round (S fuel) config w Hsingle) as (result & Hrun & Hres).
    destruct (dispatched_fields (original config w) w) as (_ & _ & Hdr).
    exists result, (dispatched (original config w) w),
      (sent_by (original config w) (adapter (requests w) (original config w))).
    split; [exact Hrun|]. split; [exact Hres|]. split; [exact Hdr|].
    destruct (adapter (requests w) (original config w)) as [status b| |reason];
      simpl; [exists []; split; [reflexivity|simpl; lia]..|reflexivity].
  - destruct (unauthorized_round fuel config w body Hretry Hout)
      as (result & w_end & Hrun & Hres & _ & Hcases).
    rewrite Hout.
    destruct (refresh_reply (add_request (original config w) w)) as [d|].
    + destruct Hcases as (_ & retry & _ & Hreq).
      eexists result, w_end, _. split; [exact Hrun|].
      split; [exact Hres|]. split; [exact Hreq|].
      eexists. split; [reflexivity|].
      simpl. destruct (adapter _ retry); simpl; lia.
    + destruct Hcases as (_ & _ & Hreq).
      eexists result, w_end, _. split; [exact Hrun|].
      split; [exact Hres|]. split; [exact Hreq|].
      eexists. split; [reflexivity|].
      unfold refresh_traffic, sent_by. repeat case_match; simpl; lia.
Qed.

Lemma post_run fuel endpoint body w :
  post fuel endpoint body w =
  match axiosInstance fuel
          {| method := "post"; url := endpoint; data := body;
             headers := {["Content-Type" := "application/json"]};
             _retry := false |} w with
  | (Returned response, w1) => (Returned (resp_data response), w1)
  | (Thrown e, w1) => (Thrown e, w1)
  | (OutOfFuel, w1) => (OutOfFuel, w1)
  end.
Proof.
  unfold post. run_monad.
  destruct (axiosInstance _ _ _) as [[response|e|] w1]; reflexivity.
Qed.

Lemma post_outcomes fuel endpoint body w :
  exists result w_end sent,
    post (S (S fuel)) endpoint body w = (result, w_end)
    /\ ((exists d, result = Returned d) \/ (exists e, result = Thrown (ExnApi e)))
    /\ requests w_end = requests w ++ sent
    /\ match adapter (requests w) (posted endpoint body w) with
       | SetupFailed _ => sent = []
       | _ => exists rest,
                sent = posted endpoint body w :: rest /\ (length rest <= 2)%nat
       end.
Proof.
  rewrite post_run. unfold posted.
  destruct (axiosInstance_outcomes fuel
              {| method := "post"; url := endpoint; data := body;
                 headers := {["Content-Type" := "application/json"]};
                 _retry := false |} w)
    as (result & w_end & sent & Hrun & Hres & Hreq & Hsent).
  rewrite Hrun.
  destruct Hres as [[response ->] | [e ->]];
    eexists _, w_end, sent; repeat split; eauto.
Qed.

Lemma clearTokens_cleared ls :
  TokenManager.clearTokens ls !! TokenManager.ACCESS_TOKEN_KEY = None
  /\ TokenManager.clearTokens ls !! TokenManager.REFRESH_TOKEN_KEY = None
  /\ TokenManager.clearTokens ls !! TokenManager.USER_KEY = None
  /\ TokenManager.clearTokens ls !! TokenManager.AUTH_STORE_KEY = None.
Proof.
  unfold TokenManager.clearTokens.
  repeat split; rewrite ?lookup_delete_ne by discriminate; apply lookup_delete_eq.
Qed.

Lemma setTokens_stored a r u ls :
  TokenManager.getAccessToken (TokenManager.setTokens a r u ls)
  = Some (JS.String_undefined a)
  /\ TokenManager.getRefreshToken (TokenManager.setTokens a r u ls)
     = Some (JS.String_undefined r)
  /\ TokenManager.setTokens a r u ls !! TokenManager.USER_KEY
     = match u with Some text => Some text | None => ls !! TokenManager.USER_KEY end.
Proof.
  unfold TokenManager.setTokens, TokenManager.getAccessToken,
    TokenManager.getRefreshToken.
  destruct u; cbn zeta; repeat split;
    rewrite ?lookup_insert_ne by discriminate;
    rewrite ?lookup_insert_eq; reflexivity.
Qed.

(** What [login] can end in, and what is stored then. *)
Lemma login_outcomes fuel credentials w :
  exists result w_end,
    login (S (S fuel)) credentials w = (result, w_end)
    /\ match result with
       | Returned r =>
           JS.truthy (access r) = true
           /\ JS.truthy (refresh r) = true
           /\ is_Some (user r)
           /\ TokenManager.getAccessToken (localStorage w_end) = access r
           /\ TokenManager.getRefreshToken (localStorage w_end) = refresh r
           /\ localStorage w_end !! TokenManager.USER_KEY
              = JSON_stringify <$> user r
       | Thrown e =>
           instanceof_ApiException e = true /\ credentials_cleared w_end
       | OutOfFuel => False
       end.
Proof.
  unfold login.
  destruct (post_outcomes fuel AUTH_LOGIN (CredentialsBody credentials) w)
    as (result & w1 & sent & Hrun & Hres & _).
  run_monad. rewrite Hrun.
  destruct Hres as [[[r|] ->] | [e ->]]; cbn beta iota.
  - destruct (JS.truthy (access r)) eqn:Ha; cbn [negb orb];
      [destruct (JS.truthy (refresh r)) eqn:Hr; cbn [negb orb];
       [destruct (user r) as [u|] eqn:Hu|]|].
    + rewrite bool_decide_eq_true_2 by eauto. cbn.
      eexists _, _. split; [reflexivity|]. cbn [localStorage].
      destruct (setTokens_stored (access r) (refresh r) (Some (JSON_stringify u))
                  (localStorage w1)) as (Hsa & Hsr & Hsu).
      rewrite Hu. repeat split; eauto.
      * etransitivity; [exact Hsa|].
        destruct (access r); [reflexivity|discriminate].
      * etransitivity; [exact Hsr|].
        destruct (refresh r); [reflexivity|discriminate].
    + rewrite bool_decide_eq_false_2 by (intros [? ?]; discriminate). cbn.
      eexists _, _. split; [reflexivity|]. split; [reflexivity|].
      apply clearTokens_cleared.
    + eexists _, _. split; [reflexivity|]. split; [reflexivity|].
      apply clearTokens_cleared.
    + eexists _, _. split; [reflexivity|]. split; [reflexivity|].
      apply clearTokens_cleared.
  - eexists _, _. split; [reflexivity|]. split; [reflexivity|].
    apply clearTokens_cleared.
  - eexists _, _. split; [reflexivity|]. split; [reflexivity|].
    apply clearTokens_cleared.
Qed.

End Facts.
End HttpFacts.

(** ** Authentication errors and stored credentials *)

Module Authentication.
Import Api Http HttpFacts.

Section WithServer.
Context `{Platform}.
Implicit Types (w : World) (config : Config).

(** C6: a request that has not been retried and is answered 401 makes the
    client call [refreshToken()] exactly once.  When that refresh succeeds
    (a refresh token is stored and the refresh request is answered 2xx with
    a body), the original request is attempted exactly once more, carrying
    the access token the refresh stored, and nothing follows it.  When it
    fails, the four credential keys (access token, refresh token, user,
    'auth-store') are removed and 'Authentication failed' with status 401
    is thrown.  A request already marked as retried is attempted once and
    is never refreshed or retried, whatever the answer. *)
Theorem C6_unauthorized_refresh_then_retry_once fuel config w :
  exists result w_end,
    axiosInstance (S (S fuel)) config w = (result, w_end)
    /\ settled result
    /\ if _retry config then
         refresh_attempts w_end = refresh_attempts w
         /\ localStorage w_end = localStorage w
         /\ requests w_end =
              requests w ++
                sent_by (original config w)
                  (adapter (requests w) (original config w))
       else
         forall body,
           adapter (requests w) (original config w) = Responded 401 body ->
           refresh_attempts w_end = S (refresh_attempts w)
           /\ match refresh_reply (add_request (original config w) w) with
              | Some d =>
                  TokenManager.getAccessToken (localStorage w_end)
                  = Some (JS.String_undefined (access d))
                  /\ exists retry,
                       is_retry_of (original config w) retry w_end
                       /\ requests w_end =
                            requests w ++ [original config w; refresh_request w]
                              ++ sent_by retry
                                   (adapter
                                      (requests w
                                         ++ [original config w; refresh_request w])
                                      retry)
              | None =>
                  result = Thrown authentication_failed
                  /\ credentials_cleared w_end
                  /\ requests w_end =
                       requests w ++ original config w ::
                         refresh_traffic (add_request (original config w) w)
              end.
Proof.
  assert (forall result : Result AxiosResponse,
             (exists response, result = Returned response)
             \/ (exists e, result = Thrown (ExnApi e)) ->
             settled result) as Hsettled.
  { intros result [[response ->] | [e ->]]; exact I. }
  destruct (classic_round config w) as [Hsingle|(body & Hretry & Hout)].
  - destruct (single_round (S fuel) config w Hsingle) as (result & Hrun & Hres).
    destruct (dispatched_fields (original config w) w) as (Hls & Hconsole & Hreq).
    exists result, (dispatched (original config w) w).
    split; [exact Hrun|]. split; [exact (Hsettled result Hres)|].
    destruct (_retry config) eqn:Hretry.
    + unfold refresh_attempts. rewrite Hconsole. repeat split; assumption.
    + intros body Hout.
      destruct Hsingle as [Hflag|Hother]; [discriminate|].
      destruct (Hother body Hout).
  - destruct (unauthorized_round fuel config w body Hretry Hout)
      as (result & w_end & Hrun & Hres & Hcount & Hcases).
    exists result, w_end.
    split; [exact Hrun|]. split; [exact (Hsettled result Hres)|].
    rewrite Hretry. intros body' _. split; [exact Hcount|exact Hcases].
Qed.


(** X2: A request already marked as retried is handed to the transport
    exactly once and is never refreshed or retried: only the request log
    grows, by that one request (by nothing if the attempt fails before the
    request is sent), and the call returns the response or throws an
    [ApiException]. *)
Theorem retried_request_is_never_refreshed fuel config w :
  _retry config = true ->
  exists result w_end,
    axiosInstance (S fuel) config w = (result, w_end)
    /\ requests w_end =
         requests w ++
           sent_by (original config w) (adapter (requests w) (original config w))
    /\ localStorage w_end = localStorage w
    /\ refresh_attempts w_end = refresh_attempts w
    /\ ((exists response, result = Returned response)
        \/ (exists e, result = Thrown (ExnApi e))).
Proof.
  intros Hretry. destruct (retried_round fuel config w Hretry) as (result & Hrun & Hres).
  destruct (dispatched_fields (original config w) w) as (Hls & Hconsole & Hreq).
  exists result, (dispatched (original config w) w).
  unfold refresh_attempts. rewrite Hconsole. repeat split; assumption.
Qed.

(** X1: A request not yet retried that is answered 401 triggers exactly one
    call of [refreshToken()], and what follows is decided by that refresh.
    It succeeds exactly when a refresh token is stored and the refresh
    request is answered 2xx with a body.  If it succeeds, the access token
    of that body is stored and the original request is handed to the
    transport exactly once more, carrying the stored access token; nothing
    is sent after it.  If it does not succeed, the four credential keys are
    removed and 'Authentication failed' with status 401 is thrown, and
    nothing is sent after the refresh request. *)
Theorem unauthorized_request_refreshes_then_retries_once fuel config w body :
  _retry config = false ->
  adapter (requests w) (original config w) = Responded 401 body ->
  exists result w_end,
    axiosInstance (S (S fuel)) config w = (result, w_end)
    /\ settled result
    /\ refresh_attempts w_end = S (refresh_attempts w)
    /\ match refresh_reply (add_request (original config w) w) with
       | Some d =>
           TokenManager.getAccessToken (localStorage w_end)
           = Some (JS.String_undefined (access d))
           /\ exists retry,
                is_retry_of (original config w) retry w_end
                /\ requests w_end =
                     requests w ++ [original config w; refresh_request w]
                       ++ sent_by retry
                            (adapter
                               (requests w ++ [original config w; refresh_request w])
                               retry)
       | None =>
           result = Thrown authentication_failed
           /\ credentials_cleared w_end
           /\ requests w_end =
                requests w ++ original config w ::
                  refresh_traffic (add_request (original config w) w)
       end.
Proof.
  intros Hretry Hout.
  destruct (unauthorized_round fuel config w body Hretry Hout)
    as (result & w_end & Hrun & Hres & Hcount & Hcases).
  exists result, w_end. split; [exact Hrun|]. split.
  { destruct Hres as [[response ->] | [e ->]]; exact I. }
  split; [exact Hcount|].
  destruct (refresh_reply (add_request (original config w) w)); exact Hcases.
Qed.

(** X4: [apiClient.post] always ends: it returns the body of the response or
    throws an [ApiException] (never a raw axios error).  When the first
    attempt fails before the request is sent, nothing is sent at all;
    otherwise the request is sent, followed by at most two more (one
    refresh and one retry). *)
Theorem post_ends_within_three_requests fuel endpoint body w :
  exists result w_end sent,
    post (S (S fuel)) endpoint body w = (result, w_end)
    /\ ((exists d, result = Returned d) \/ (exists e, result = Thrown (ExnApi e)))
    /\ requests w_end = requests w ++ sent
    /\ match adapter (requests w) (posted endpoint body w) with
       | SetupFailed _ => sent = []
       | _ => exists rest,
                sent = posted endpoint body w :: rest /\ (length rest <= 2)%nat
       end.
Proof. apply post_outcomes. Qed.

(** X3: When the refresh succeeds and the retried request is answered 401
    again, that 401 is thrown as an ordinary [ApiException]; the credentials
    just refreshed stay in localStorage, and exactly three requests were
    sent. *)
Theorem second_401_keeps_refreshed_credentials fuel config w d body :
  _retry config = false ->
  JS.truthy (TokenManager.getRefreshToken (localStorage w)) = true ->
  (forall sent, adapter sent (refresh_request w) = Responded 200 (Some d)) ->
  (forall sent r,
      req_url r = API_BASE_URL +:+ url config ->
      adapter sent r = Responded 401 body) ->
  exists e w_end,
    axiosInstance (S (S fuel)) config w = (Thrown (ExnApi e), w_end)
    /\ exn_status e = Some 401
    /\ TokenManager.getAccessToken (localStorage w_end)
       = Some (JS.String_undefined (access d))
    /\ TokenManager.getRefreshToken (localStorage w_end)
       = Some (JS.or_string (refresh d)
                 (JS.String_null (TokenManager.getRefreshToken (localStorage w))))
    /\ length (requests w_end) = (length (requests w) + 3)%nat.
Proof.
  intros Hretry Hstored Hrefresh Hdenied.
  assert (forall ls c, req_url (wire (prepare ls c)) = API_BASE_URL +:+ url c) as Hurl.
  { intros ls c. apply prepare_wire. }
  rewrite axiosInstance_round.
  rewrite (dispatched_answered (original config w) w 401 body)
    by (apply Hdenied, Hurl).
  rewrite (Hdenied _ (original config w)) by apply Hurl.
  destruct (settle_401 (prepare (localStorage w) config) body
              (add_request (original config w) w)) as (error & Hs & Hc & Hst).
  rewrite Hs. unfold response_rejected.
  rewrite Hst, Hc, prepare_retry, Hretry.
  rewrite bool_decide_eq_true_2 by reflexivity. cbn [andb negb].
  destruct (refreshToken_succeeds (add_request (original config w) w) 200 d)
    as (w1 & Hrun & Hreq & Hls); [exact Hstored|apply Hrefresh|lia|].
  run_monad. rewrite Hrun.
  rewrite axiosInstance_round.
  match goal with
  | |- context [dispatched (original ?c w1) w1] =>
      assert (req_url (original c w1) = API_BASE_URL +:+ url config) as Hagain
  end.
  { unfold original. rewrite Hurl. cbn [url set_header set_retry].
    f_equal. apply prepare_fields. }
  rewrite (dispatched_answered (original _ w1) w1 401 body)
    by (apply Hdenied, Hagain).
  rewrite (Hdenied _ (original _ w1)) by exact Hagain.
  match goal with
  | |- context [settle ?c (Responded 401 body) ?w2] =>
      destruct (settle_401 c body w2) as (error2 & Hs2 & Hc2 & Hst2)
  end.
  rewrite Hs2. unfold response_rejected.
  rewrite Hc2, prepare_retry. cbn [_retry set_header set_retry negb].
  rewrite andb_false_r.
  match goal with
  | |- context [handleError error2 ?w2] =>
      destruct (handleError_status (A:=AxiosResponse) error2 w2) as (e & He & Hstatus)
  end.
  rewrite He. exists e. eexists. split; [reflexivity|].
  split; [now rewrite Hstatus|].
  cbn [localStorage requests add_request]. rewrite Hls.
  destruct (setTokens_stored (access d)
              (Some (JS.or_string (refresh d)
                       (JS.String_null
                          (TokenManager.getRefreshToken
                             (localStorage (add_request (original config w) w))))))
              (JSON_stringify <$> user d)
              (localStorage (add_request (original config w) w)))
    as (Ha & Hr & _).
  split; [exact Ha|]. split; [exact Hr|].
  rewrite Hreq. cbn [requests add_request]. rewrite !length_app. simpl. lia.
Qed.

(** X5: [login] returns only a response that has an access token, a refresh
    token and a user, and then exactly those are stored; every other way
    out is an [ApiException], and then none of the four credential keys is
    left in localStorage. *)
Theorem login_stores_valid_tokens_or_clears fuel credentials w :
  exists result w_end,
    login (S (S fuel)) credentials w = (result, w_end)
    /\ match result with
       | Returned r =>
           JS.truthy (access r) = true
           /\ JS.truthy (refresh r) = true
           /\ is_Some (user r)
           /\ TokenManager.getAccessToken (localStorage w_end) = access r
           /\ TokenManager.getRefreshToken (localStorage w_end) = refresh r
           /\ localStorage w_end !! TokenManager.USER_KEY
              = JSON_stringify <$> user r
       | Thrown e =>
           instanceof_ApiException e = true /\ credentials_cleared w_end
       | OutOfFuel => False
       end.
Proof. apply login_outcomes. Qed.

(** X6: [logout] never throws, whatever the server does, and always leaves
    localStorage without the four credential keys and without
    'user_settings'; with no refresh token stored it sends nothing. *)
Theorem logout_always_clears fuel w :
  exists w_end,
    logout (S (S fuel)) w = (Returned tt, w_end)
    /\ credentials_cleared w_end
    /\ localStorage w_end !! "user_settings" = None
    /\ (JS.truthy (TokenManager.getRefreshToken (localStorage w)) = false ->
        requests w_end = requests w).
Proof.
  unfold logout. run_monad. cbn beta.
  destruct (JS.truthy (TokenManager.getRefreshToken (localStorage w))) eqn:Hstored.
  - destruct (post_outcomes fuel AUTH_LOGOUT
                (LogoutBody (JS.String_null
                               (TokenManager.getRefreshToken (localStorage w)))) w)
      as (result & w1 & sent & Hrun & Hres & _).
    rewrite Hrun.
    destruct Hres as [[d ->] | [e ->]]; cbn;
      (eexists; split; [reflexivity|]);
      unfold credentials_cleared, TokenManager.clearTokens; cbn [localStorage];
      repeat split; try discriminate;
      rewrite ?lookup_delete_ne by discriminate; apply lookup_delete_eq.
  - cbn. eexists. split; [reflexivity|].
    unfold credentials_cleared, TokenManager.clearTokens; cbn [localStorage requests];
      repeat split;
      rewrite ?lookup_delete_ne by discriminate; apply lookup_delete_eq.
Qed.

(** X7: [register] stores what the response carries without looking at it:
    when the server answers 2xx with neither token, the literal text
    'undefined' is stored for both and [isAuthenticated()] turns true. *)
Theorem register_stores_missing_tokens_as_undefined fuel registration w r w_end :
  register (S (S fuel)) registration w = (Returned r, w_end) ->
  access r = None ->
  refresh r = None ->
  TokenManager.getAccessToken (localStorage w_end) = Some "undefined"
  /\ TokenManager.getRefreshToken (localStorage w_end) = Some "undefined"
  /\ TokenManager.isAuthenticated (localStorage w_end) = true.
Proof.
  unfold register. intros Hrun Ha Hr.
  destruct (post_outcomes fuel AUTH_REGISTER (RegisterBody registration) w)
    as (result & w1 & sent & Hpost & Hres & _).
  run_monad. rewrite Hpost in Hrun.
  destruct Hres as [[[r'|] ->] | [e ->]]; cbn in Hrun; simplify_eq.
  cbn [localStorage].
  destruct (setTokens_stored (access r) (refresh r) (JSON_stringify <$> user r)
              (localStorage w1)) as (Hsa & Hsr & _).
  unfold TokenManager.isAuthenticated.
  rewrite Hsa, Hsr, Ha, Hr. repeat split.
Qed.

(** X8: [AuthService.refreshToken] overwrites the stored refresh token with
    whatever the response carries: when the server does not send a new
    one, the stored refresh token becomes the text 'undefined' and the old
    one is lost. *)
Theorem service_refresh_loses_unrotated_token fuel w r w_end :
  AuthService_refreshToken (S (S fuel)) w = (Returned r, w_end) ->
  refresh r = None ->
  TokenManager.getRefreshToken (localStorage w_end) = Some "undefined"
  /\ TokenManager.getAccessToken (localStorage w_end)
     = Some (JS.String_undefined (access r)).
Proof.
  unfold AuthService_refreshToken. intros Hrun Hr. run_monad. cbn beta in Hrun.
  destruct (JS.truthy (TokenManager.getRefreshToken (localStorage w)));
    cbn [negb] in Hrun; [|discriminate].
  match type of Hrun with
  | context [post _ _ ?b w] =>
      destruct (post_outcomes fuel AUTH_REFRESH b w)
        as (result & w1 & sent & Hpost & Hres & _)
  end.
  rewrite Hpost in Hrun.
  destruct Hres as [[[r'|] ->] | [e ->]]; cbn in Hrun; simplify_eq.
  cbn [localStorage].
  destruct (setTokens_stored (access r) (refresh r) (JSON_stringify <$> user r)
              (localStorage w1)) as (Hsa & Hsr & _).
  rewrite Hsa, Hsr, Hr. split; reflexivity.
Qed.

(** X9: The interceptor's own [refreshToken()], in contrast, keeps the stored
    refresh token when the server does not send a new one, and keeps the
    stored user when the response has none. *)
Theorem interceptor_refresh_keeps_unrotated_token w status d :
  JS.truthy (TokenManager.getRefreshToken (localStorage w)) = true ->
  adapter (requests w) (refresh_request w) = Responded status (Some d) ->
  200 <= status < 300 ->
  refresh d = None ->
  user d = None ->
  exists w1,
    refreshToken w = (Returned true, w1)
    /\ TokenManager.getRefreshToken (localStorage w1)
       = TokenManager.getRefreshToken (localStorage w)
    /\ localStorage w1 !! TokenManager.USER_KEY
       = localStorage w !! TokenManager.USER_KEY
    /\ TokenManager.getAccessToken (localStorage w1)
       = Some (JS.String_undefined (access d)).
Proof.
  intros Hstored Hout Hrange Hr Hu.
  destruct (refreshToken_succeeds w status d Hstored Hout Hrange)
    as (w1 & Hrun & _ & Hls).
  exists w1. split; [exact Hrun|]. rewrite Hls, Hr, Hu.
  destruct (setTokens_stored (access d)
              (Some (JS.or_string None
                       (JS.String_null (TokenManager.getRefreshToken (localStorage w)))))
              (JSON_stringify <$> None) (localStorage w)) as (Ha & Hrf & Hus).
  rewrite Ha, Hrf, Hus. repeat split.
  destruct (TokenManager.getRefreshToken (localStorage w)); [reflexivity|discriminate].
Qed.

End WithServer.

Lemma second_401_keeps_refreshed_credentials_witness :
  exists e w_end,
    axiosInstance (H:=ApiSample.locked_platform) 2 ApiSample.get_documents
      ApiSample.stale = (Thrown (ExnApi e), w_end)
    /\ exn_status e = Some 401
    /\ TokenManager.getAccessToken (localStorage w_end) = Some "access-2"
    /\ TokenManager.getRefreshToken (localStorage w_end) = Some "refresh-1"
    /\ length (requests w_end) = 3%nat.
Proof.
  apply (second_401_keeps_refreshed_credentials (H:=ApiSample.locked_platform)
           0 ApiSample.get_documents ApiSample.stale
           (ApiSample.body (Some "access-2") None None) None).
  - reflexivity.
  - reflexivity.
  - intros sent. reflexivity.
  - intros sent r Hurl. cbn [adapter ApiSample.locked_platform].
    unfold ApiSample.locked_server. rewrite Hurl. reflexivity.
Defined.

#[local] Existing Instance ApiSample.platform.

Lemma C6_unauthorized_refresh_then_retry_once_witness :
  exists result w_end retry,
    axiosInstance 2 ApiSample.get_documents ApiSample.stale = (result, w_end)
    /\ settled result
    /\ refresh_attempts w_end = 1%nat
    /\ TokenManager.getAccessToken (localStorage w_end) = Some "access-2"
    /\ is_retry_of (original ApiSample.get_documents ApiSample.stale) retry w_end
    /\ firstn 2 (requests w_end) =
         [original ApiSample.get_documents ApiSample.stale;
          refresh_request ApiSample.stale].
Proof.
  destruct (C6_unauthorized_refresh_then_retry_once 0
              ApiSample.get_documents ApiSample.stale)
    as (result & w_end & Hrun & Hsettled & Hcases).
  cbn [_retry ApiSample.get_documents] in Hcases.
  destruct (Hcases None) as (Hcount & Hreply); [vm_compute; reflexivity|].
  assert (refresh_reply
            (add_request (original ApiSample.get_documents ApiSample.stale)
               ApiSample.stale)
          = Some (ApiSample.body (Some "access-2") None None)) as Hsome
    by (vm_compute; reflexivity).
  rewrite Hsome in Hreply.
  destruct Hreply as (Haccess & retry & Hretry & Hreq).
  exists result, w_end, retry. repeat split; try assumption; try apply Hretry.
  rewrite Hreq. reflexivity.
Defined.


Lemma retried_request_is_never_refreshed_witness :
  exists result w_end,
    axiosInstance 1 (set_retry true ApiSample.get_documents) ApiSample.revoked
    = (result, w_end)
    /\ requests w_end =
         [original (set_retry true ApiSample.get_documents) ApiSample.revoked]
    /\ localStorage w_end = localStorage ApiSample.revoked
    /\ refresh_attempts w_end = refresh_attempts ApiSample.revoked
    /\ ((exists response, result = Returned response)
        \/ (exists e, result = Thrown (ExnApi e))).
Proof.
  destruct (retried_request_is_never_refreshed 0
              (set_retry true ApiSample.get_documents) ApiSample.revoked)
    as (result & w_end & Hrun & Hreq & Hls & Hcount & Hres).
  - reflexivity.
  - exists result, w_end. repeat split; assumption.
Defined.

Lemma unauthorized_request_refreshes_then_retries_once_witness :
  exists result w_end retry,
    axiosInstance 2 ApiSample.get_documents ApiSample.stale = (result, w_end)
    /\ settled result
    /\ refresh_attempts w_end = 1%nat
    /\ TokenManager.getAccessToken (localStorage w_end) = Some "access-2"
    /\ is_retry_of (original ApiSample.get_documents ApiSample.stale) retry w_end
    /\ firstn 2 (requests w_end) =
         [original ApiSample.get_documents ApiSample.stale;
          refresh_request ApiSample.stale].
Proof.
  destruct (unauthorized_request_refreshes_then_retries_once 0
              ApiSample.get_documents ApiSample.stale None)
    as (result & w_end & Hrun & Hsettled & Hcount & Hcases).
  - reflexivity.
  - vm_compute. reflexivity.
  - assert (refresh_reply
              (add_request (original ApiSample.get_documents ApiSample.stale)
                 ApiSample.stale)
            = Some (ApiSample.body (Some "access-2") None None)) as Hreply
      by (vm_compute; reflexivity).
    rewrite Hreply in Hcases.
    destruct Hcases as (Haccess & retry & Hretry & Hreq).
    exists result, w_end, retry. repeat split; try assumption; try apply Hretry.
    rewrite Hreq. reflexivity.
Defined.

Lemma register_stores_missing_tokens_as_undefined_witness :
  TokenManager.isAuthenticated
    (localStorage (snd (register 2 ApiSample.registration ApiSample.empty))) = true.
Proof.
  apply (register_stores_missing_tokens_as_undefined 0 ApiSample.registration
           ApiSample.empty (ApiSample.body None None None)
           (snd (register 2 ApiSample.registration ApiSample.empty))).
  - vm_compute. reflexivity.
  - reflexivity.
  - reflexivity.
Defined.

Lemma service_refresh_loses_unrotated_token_witness :
  TokenManager.getRefreshToken
    (localStorage (snd (AuthService_refreshToken 2 ApiSample.stale)))
  = Some "undefined".
Proof.
  apply (service_refresh_loses_unrotated_token 0 ApiSample.stale
           (ApiSample.body (Some "access-2") None None)
           (snd (AuthService_refreshToken 2 ApiSample.stale))).
  - vm_compute. reflexivity.
  - reflexivity.
Defined.

Lemma interceptor_refresh_keeps_unrotated_token_witness :
  exists w1,
    refreshToken ApiSample.stale = (Returned true, w1)
    /\ TokenManager.getRefreshToken (localStorage w1) = Some "refresh-1".
Proof.
  destruct (interceptor_refresh_keeps_unrotated_token ApiSample.stale 200
              (ApiSample.body (Some "access-2") None None))
    as (w1 & Hrun & Hkept & _).
  - reflexivity.
  - vm_compute. reflexivity.
  - lia.
  - reflexivity.
  - reflexivity.
  - exists w1. split; [exact Hrun|]. rewrite Hkept. reflexivity.
Defined.

End Authentication.

(** ** The life of a channel *)

Module Lifecycle.
Import Chat ChatFacts Wire.

Section WithClient.
Context {U : Type} `{Platform}.
Implicit Types (s : State U).

(** X10: Without a stored access token [connect()] rejects at once and changes
    nothing: no socket, no log line.  A reconnect timer firing in that
    situation bumps the counter and creates no socket either. *)
Theorem connect_needs_access_token s :
  JS.truthy (TokenManager.getAccessToken (localStorage s)) = false ->
  connect s = (Throw "No access token available", s)
  /\ sockets (reconnect_callback s) = sockets s
  /\ ws (reconnect_callback s) = ws s
  /\ reconnectAttempts (reconnect_callback s) = reconnectAttempts s + 1.
Proof.
  intros Htoken. unfold reconnect_callback, connect, emit. simpl.
  rewrite Htoken. simpl. repeat split.
Qed.

Lemma connect_creates s :
  JS.truthy (TokenManager.getAccessToken (localStorage s)) = true ->
  WebSocket_rejects (channel_url s) = None ->
  exists s1,
    connect s = (Normal tt, s1)
    /\ sockets s1 =
         sockets s ++ [{| url := channel_url s; readyState := CONNECTING; sent := [] |}]
    /\ ws s1 = Some (length (sockets s))
    /\ reconnectAttempts s1 = reconnectAttempts s
    /\ isIntentionallyClosed s1 = isIntentionallyClosed s
    /\ timers s1 = timers s
    /\ ui s1 = ui s.
Proof.
  intros Htoken Hok. unfold connect, channel_url, emit in *. simpl in *.
  rewrite Htoken. simpl. rewrite Hok.
  eexists. split; [reflexivity|]. repeat split.
Qed.

(** X11: With a token stored, [connect()] creates exactly one new socket, in
    the CONNECTING state, for the session's URL, and points the channel at
    it.  Every socket created earlier is left as it is: the previous
    channel, if any, is not closed. *)
Theorem connect_adds_one_socket s :
  JS.truthy (TokenManager.getAccessToken (localStorage s)) = true ->
  WebSocket_rejects (channel_url s) = None ->
  exists s1,
    connect s = (Normal tt, s1)
    /\ sockets s1 =
         sockets s ++ [{| url := channel_url s; readyState := CONNECTING; sent := [] |}]
    /\ ws s1 = Some (length (sockets s))
    /\ reconnectAttempts s1 = reconnectAttempts s
    /\ isIntentionallyClosed s1 = isIntentionallyClosed s
    /\ timers s1 = timers s
    /\ ui s1 = ui s.
Proof. apply connect_creates. Qed.

(** X12: Once five attempts have been made without a successful open, an
    unexpected close schedules nothing more: the channel stays closed
    until the caller connects again. *)
Theorem exhausted_budget_stops_reconnecting s sid code reason :
  is_Some (sockets s !! sid) ->
  maxReconnectAttempts <= reconnectAttempts s ->
  timers (step s (Ws_close sid code reason)) = timers s.
Proof.
  intros [w Hw] Hbudget. simpl. rewrite Hw. unfold_client. simpl.
  assert ((reconnectAttempts s <? maxReconnectAttempts) = false) as Hb
    by (apply Z.ltb_ge; exact Hbudget).
  destruct (onDisconnect (handlers s)); simpl; rewrite Hb, andb_false_r;
    reflexivity.
Qed.

(** X13: An open event marks the socket OPEN and resets the counter, so the
    backoff starts over: the next unexpected close reconnects with delay 0,
    however many attempts it took to get here. *)
Theorem open_resets_backoff s sid code reason :
  is_Some (sockets s !! sid) ->
  isIntentionallyClosed s = false ->
  let s1 := step s (Ws_open sid) in
  reconnectAttempts s1 = 0
  /\ readyState <$> sockets s1 !! sid = Some OPEN
  /\ timers (step s1 (Ws_close sid code reason)) = timers s ++ [0].
Proof.
  intros [w Hw] Hflag s1.
  assert (reconnectAttempts s1 = 0) as Hr.
  { subst s1. simpl. rewrite Hw. unfold_client. simpl. cases. }
  assert (sockets s1 = alter (set_readyState OPEN) sid (sockets s)) as Hs.
  { subst s1. simpl. rewrite Hw. unfold_client. simpl. cases. }
  assert (timers s1 = timers s) as Ht.
  { subst s1. simpl. rewrite Hw. unfold_client. simpl. cases. }
  split; [exact Hr|]. split.
  - rewrite Hs, list_lookup_alter_eq, Hw. reflexivity.
  - rewrite close_schedules.
    + rewrite Hr, Ht. reflexivity.
    + rewrite Hs, list_lookup_alter_eq, Hw. simpl. eauto.
    + exact (eq_trans (step_flag s (Ws_open sid)) Hflag).
    + rewrite Hr. reflexivity.
Qed.

(** X14: After [disconnect()] the channel reference is null, [isConnected()] is
    false and [sendMessage] throws; no socket is forgotten, pending timers
    are left pending, and a second [disconnect()] changes nothing. *)
Theorem disconnect_closes_the_channel s text options :
  ws (disconnect s) = None
  /\ isConnected (disconnect s) = false
  /\ sendMessage text options (disconnect s)
     = (Throw "WebSocket is not connected", disconnect s)
  /\ length (sockets (disconnect s)) = length (sockets s)
  /\ timers (disconnect s) = timers s
  /\ disconnect (disconnect s) = disconnect s.
Proof.
  unfold isConnected, sendMessage, open_socket, disconnect. simpl.
  destruct (ws s) as [sid|] eqn:Hws; simpl; rewrite ?Hws; repeat split.
  apply length_alter.
Qed.

(** X15: [disconnect()] does not cancel a reconnection that is already
    scheduled: when the timer fires afterwards (and a token is stored) a
    new socket is created and becomes the channel, although the flag is
    up. *)
Theorem pending_timer_survives_disconnect s i delay :
  timers s !! i = Some delay ->
  JS.truthy (TokenManager.getAccessToken (localStorage s)) = true ->
  WebSocket_rejects (channel_url s) = None ->
  let s1 := step (step s Call_disconnect) (Timer_fire i) in
  isIntentionallyClosed s1 = true
  /\ ws s1 = Some (length (sockets s))
  /\ sockets s1 !! length (sockets s)
     = Some {| url := channel_url s; readyState := CONNECTING; sent := [] |}
  /\ timers s1 = delete i (timers s).
Proof.
  intros Htimer Htoken Hok s1. subst s1.
  assert (timers (disconnect s) = timers s) as Ht.
  { unfold disconnect. simpl. now destruct (ws s). }
  cbn [step]. rewrite Ht, Htimer. unfold reconnect_callback.
  match goal with
  | |- context [connect ?s0] =>
      assert (localStorage s0 = localStorage s
              /\ channel_url s0 = channel_url s
              /\ length (sockets s0) = length (sockets s)
              /\ isIntentionallyClosed s0 = true
              /\ timers s0 = delete i (timers s)) as (Hls & Hurl & Hlen & Hflag & Htim);
        [|destruct (connect_creates s0)
            as (s2 & Hrun & Hsock & Hws & _ & Hflag2 & Htim2 & _);
          [rewrite Hls; exact Htoken | rewrite Hurl; exact Hok |]]
  end.
  { unfold channel_url, disconnect, emit. simpl.
    destruct (ws s); simpl; repeat split. apply length_alter. }
  rewrite Hrun. cbn [snd].
  rewrite Hflag2, Hflag, Hws, Hlen, Htim2, Htim, Hsock, Hurl.
  repeat split.
  rewrite lookup_app_r by lia. rewrite Hlen, Nat.sub_diag. reflexivity.
Qed.

Lemma step_keeps_channel_in_range s e :
  channel_in_range s -> channel_in_range (step s e).
Proof.
  unfold channel_in_range. intros Hs.
  destruct e; unfold_client; simpl; cases;
    rewrite ?length_alter, ?length_app; simpl; simplify_eq; try lia; try exact Hs.
Qed.

Lemma run_keeps_channel_in_range s es :
  channel_in_range s -> channel_in_range (run s es).
Proof.
  revert s. induction es as [|e es IH]; intros s Hs; [exact Hs|].
  rewrite run_cons. apply IH. apply step_keeps_channel_in_range. exact Hs.
Qed.

(** X16: Whatever calls and events a client goes through from its
    construction, the channel reference is null or one of the sockets the
    client created: [this.ws.readyState] is never read on a missing
    socket. *)
Theorem channel_is_always_a_created_socket chat_id document_id
    (h : Handlers U) (ls : gmap string string) (u : U) es :
  match ws (run (new_client chat_id document_id h ls u) es) with
  | Some sid =>
      is_Some (sockets (run (new_client chat_id document_id h ls u) es) !! sid)
  | None => True
  end.
Proof.
  pose proof (run_keeps_channel_in_range
                (new_client chat_id document_id h ls u) es I) as Hrange.
  unfold channel_in_range in Hrange.
  destruct (ws (run (new_client chat_id document_id h ls u) es)); [|exact I].
  apply lookup_lt_is_Some. exact Hrange.
Qed.

(** X17: The five informational message types ('connection', 'message_saved',
    'response_start', 'chunks_retrieved', 'settings_updated') are only
    logged: one console line, no handler called, nothing else changed. *)
Theorem informational_messages_are_only_logged s sid payload data t :
  is_Some (sockets s !! sid) ->
  JSON_parse payload = ParsedValue data ->
  type data = Some t ->
  informational t ->
  exists line,
    step s (Ws_message sid payload)
    = set_trace (trace s ++ [console_log line]) s.
Proof.
  intros [w Hw] Hparse Htype Hinfo. cbn [step]. rewrite Hw.
  unfold onmessage, onmessage_try, handleMessage. rewrite Hparse, Htype.
  destruct Hinfo as [-> | [-> | [-> | [-> | ->]]]]; simpl; eexists; reflexivity.
Qed.

(** X18: The JSON text [null] is dropped like malformed text: reading its
    [type] throws inside the [try], so the handler returns normally with
    one line on the error console and no handler called. *)
Theorem null_payload_is_dropped s payload :
  JSON_parse payload = ParsedNull ->
  onmessage payload s =
    (Normal tt,
     set_trace (trace s ++ [console_error "Failed to parse WebSocket message:"]) s).
Proof.
  intros Hnull. unfold onmessage, onmessage_try. rewrite Hnull. reflexivity.
Qed.

(** X19: On an open channel [updateSettings] hands the socket exactly one
    frame, a 'settings_update' carrying the settings as given: unlike
    [sendMessage] it fills in no default, so a temperature of 0 goes out as
    0 and an absent model stays absent. *)
Theorem updateSettings_forwards_settings_unchanged s sid frames settings :
  open_with s sid frames ->
  exists s1,
    updateSettings settings s = (Normal tt, s1)
    /\ open_with s1 sid
         (frames ++
            [JSON_stringify
               (OutSettings {| settings_type := "settings_update";
                               settings_rest := settings |})])
    /\ timers s1 = timers s
    /\ trace s1 = trace s
    /\ ui s1 = ui s.
Proof.
  intros (w & Hws & Hw & Hstate & Hsent).
  unfold updateSettings, open_socket. rewrite Hws, Hw, Hstate. simpl.
  eexists. split; [reflexivity|]. unfold ws_send. simpl. repeat split.
  exists (WebSocket_send
            (JSON_stringify
               (OutSettings {| settings_type := "settings_update";
                               settings_rest := settings |})) w).
  simpl. repeat split; [exact Hws| |exact Hstate|].
  - rewrite list_lookup_alter_eq, Hw. reflexivity.
  - now rewrite Hsent.
Qed.

End WithClient.

Section WithChatPanel.
Context `{Platform}.
Implicit Types (s : State ChatPanel.Panel).

(** X20: With ChatPanel's handlers, a server 'error' event discards the partial
    reply: the display buffer is emptied, the generating indicator is
    switched off and the server's text is shown as a toast; the message
    list and the connection indicator are untouched. *)
Theorem chat_error_discards_partial_reply s sid payload data :
  handlers s = ChatPanel.handlers ->
  is_Some (sockets s !! sid) ->
  JSON_parse payload = ParsedValue data ->
  type data = Some "error" ->
  let s1 := step s (Ws_message sid payload) in
  ChatPanel.streamingMessage (ui s1) = ""
  /\ ChatPanel.isGenerating (ui s1) = false
  /\ ChatPanel.toasts (ui s1) = ChatPanel.toasts (ui s) ++ [message data]
  /\ ChatPanel.messages (ui s1) = ChatPanel.messages (ui s)
  /\ ChatPanel.isConnected (ui s1) = ChatPanel.isConnected (ui s).
Proof.
  intros Hh [w Hw] Hparse Htype. cbn [step]. rewrite Hw.
  unfold onmessage, onmessage_try, handleMessage. rewrite Hparse, Htype.
  simpl. rewrite Hh. simpl. repeat split.
Qed.

(** X21: With ChatPanel's handlers, only 'token', 'response_complete' and
    'error' messages change what the panel shows: a message of any other
    type, or with no type, leaves the panel's state as it was. *)
Theorem other_messages_leave_the_panel_alone s data :
  handlers s = ChatPanel.handlers ->
  type data <> Some "token" ->
  type data <> Some "response_complete" ->
  type data <> Some "error" ->
  fst (handleMessage data s) = Normal tt
  /\ ui (snd (handleMessage data s)) = ui s.
Proof.
  intros Hh Htoken Hcomplete Herror. unfold handleMessage.
  destruct (type data) as [t|];
    [|unfold call1, emit; simpl; rewrite Hh; split; reflexivity].
  repeat match goal with
         | |- context [String.eqb t ?k] =>
             destruct (String.eqb_spec t k) as [->|?]
         end;
    try congruence; try (split; reflexivity).
  unfold call1, emit. simpl. rewrite Hh. split; reflexivity.
Qed.

End WithChatPanel.

Lemma informational_messages_are_only_logged_witness :
  exists line,
    step (H:=Sample.typed_platform) Sample.streaming (Ws_message 0%nat "connection")
    = set_trace (trace Sample.streaming ++ [console_log line]) Sample.streaming.
Proof.
  apply (informational_messages_are_only_logged (H:=Sample.typed_platform)
           Sample.streaming 0%nat "connection"
           {| type := Some "connection"; message_id := None; token := None;
              content := None; chunks := None; timestamp := None;
              message := Some "details" |} "connection").
  - vm_compute. eauto.
  - reflexivity.
  - reflexivity.
  - left. reflexivity.
Defined.

Lemma chat_error_discards_partial_reply_witness :
  let s1 := step (H:=Sample.typed_platform) Sample.streaming
              (Ws_message 0%nat "error") in
  ChatPanel.streamingMessage (ui Sample.streaming) = "The answer is"
  /\ ChatPanel.streamingMessage (ui s1) = ""
  /\ ChatPanel.isGenerating (ui s1) = false
  /\ ChatPanel.toasts (ui s1) = [] ++ [Some "details"].
Proof.
  destruct (chat_error_discards_partial_reply (H:=Sample.typed_platform)
              Sample.streaming 0%nat "error"
              {| type := Some "error"; message_id := None; token := None;
                 content := None; chunks := None; timestamp := None;
                 message := Some "details" |})
    as (Hbuf & Hgen & Htoast & _).
  - reflexivity.
  - vm_compute. eauto.
  - reflexivity.
  - reflexivity.
  - repeat split; assumption.
Defined.

#[local] Existing Instance Sample.platform.

Lemma connect_needs_access_token_witness :
  connect Sample.signed_out = (Throw "No access token available", Sample.signed_out).
Proof.
  apply (connect_needs_access_token Sample.signed_out). reflexivity.
Defined.

Lemma connect_adds_one_socket_witness :
  exists s1,
    connect Sample.fresh = (Normal tt, s1)
    /\ sockets s1 =
         [] ++ [{| url := "ws://localhost:8000/ws/chat/chat-1/document/doc-1/?token=access-1";
                   readyState := CONNECTING; sent := [] |}]
    /\ ws s1 = Some 0%nat.
Proof.
  destruct (connect_adds_one_socket Sample.fresh)
    as (s1 & Hrun & Hsock & Hws & _).
  - reflexivity.
  - reflexivity.
  - exists s1. repeat split; assumption.
Defined.

Lemma exhausted_budget_stops_reconnecting_witness :
  reconnectAttempts Sample.exhausted = 5
  /\ isIntentionallyClosed Sample.exhausted = false
  /\ timers (step Sample.exhausted (Ws_close 5%nat 1006 "")) = [].
Proof.
  split; [reflexivity|]. split; [reflexivity|].
  apply (exhausted_budget_stops_reconnecting Sample.exhausted 5%nat 1006 "").
  - vm_compute. eauto.
  - vm_compute. discriminate.
Defined.

Lemma open_resets_backoff_witness :
  reconnectAttempts Sample.exhausted = 5
  /\ timers (step (step Sample.exhausted (Ws_open 5%nat)) (Ws_close 5%nat 1006 ""))
     = [] ++ [0].
Proof.
  split; [reflexivity|].
  apply (open_resets_backoff Sample.exhausted 5%nat 1006 "").
  - vm_compute. eauto.
  - reflexivity.
Defined.

Lemma pending_timer_survives_disconnect_witness :
  let s1 := step (step Sample.waiting Call_disconnect) (Timer_fire 0%nat) in
  isIntentionallyClosed s1 = true /\ ws s1 = Some 1%nat.
Proof.
  destruct (pending_timer_survives_disconnect Sample.waiting 0%nat 0)
    as (Hflag & Hws & _).
  - reflexivity.
  - reflexivity.
  - reflexivity.
  - split; assumption.
Defined.

Lemma null_payload_is_dropped_witness :
  onmessage "null" Sample.connected =
    (Normal tt,
     set_trace (trace Sample.connected
                  ++ [console_error "Failed to parse WebSocket message:"])
       Sample.connected).
Proof. apply (null_payload_is_dropped Sample.connected "null"). reflexivity. Defined.

Lemma updateSettings_forwards_settings_unchanged_witness :
  exists s1,
    updateSettings Sample.zero_options Sample.connected = (Normal tt, s1)
    /\ open_with s1 0%nat ([] ++ ["settings_update"]).
Proof.
  destruct (updateSettings_forwards_settings_unchanged Sample.connected 0%nat []
              Sample.zero_options) as (s1 & Hrun & Hopen & _).
  - eexists. vm_compute. repeat split.
  - exists s1. split; assumption.
Defined.

Lemma other_messages_leave_the_panel_alone_witness :
  ui (snd (handleMessage
             {| type := Some "ping"; message_id := None; token := Some "x";
                content := None; chunks := None; timestamp := None;
                message := None |}
             Sample.streaming))
  = ui Sample.streaming.
Proof.
  apply other_messages_leave_the_panel_alone; [reflexivity|discriminate..].
Defined.

End Lifecycle.

(** ** Page references of a completed response *)

Module Pages.
Import ChatPanel PageNumbers.

(** *** Comparisons of binary64 numbers *)







(** *** Deduplication and sorting *)














End Pages.

(** ** Stored credentials *)

Module Storage.
Import TokenManager.

(** X24: Storing a non-empty access token and a non-empty refresh token makes
    [isAuthenticated()] true and both read back as stored, and the user is
    stored when one is given.  [clearTokens] then makes [isAuthenticated()]
    false again: each of the four credential keys (access token, refresh
    token, user, 'auth-store') is absent afterwards, and every other key of
    localStorage is as it was before anything was stored. *)
Theorem tokens_are_read_back_and_cleared accessToken refreshToken user ls :
  JS.truthy_string accessToken = true ->
  JS.truthy_string refreshToken = true ->
  let stored := setTokens (Some accessToken) (Some refreshToken) user ls in
  getAccessToken stored = Some accessToken
  /\ getRefreshToken stored = Some refreshToken
  /\ stored !! USER_KEY
     = match user with Some text => Some text | None => ls !! USER_KEY end
  /\ isAuthenticated stored = true
  /\ isAuthenticated (clearTokens stored) = false
  /\ clearTokens stored !! ACCESS_TOKEN_KEY = None
  /\ clearTokens stored !! REFRESH_TOKEN_KEY = None
  /\ clearTokens stored !! USER_KEY = None
  /\ clearTokens stored !! AUTH_STORE_KEY = None
  /\ (forall key,
        key <> ACCESS_TOKEN_KEY -> key <> REFRESH_TOKEN_KEY ->
        key <> USER_KEY -> key <> AUTH_STORE_KEY ->
        clearTokens stored !! key = ls !! key).
Proof.
  intros Ha Hr stored.
  destruct (HttpFacts.setTokens_stored (Some accessToken) (Some refreshToken) user ls)
    as (Hsa & Hsr & Hsu).
  destruct (HttpFacts.clearTokens_cleared stored) as (Hca & Hcr & Hcu & Hcs).
  fold stored in Hsa, Hsr, Hsu. simpl in Hsa, Hsr.
  split; [exact Hsa|]. split; [exact Hsr|]. split; [exact Hsu|]. split.
  { unfold isAuthenticated. rewrite Hsa, Hsr. simpl. now rewrite Ha, Hr. }
  split.
  { unfold isAuthenticated, getAccessToken. rewrite Hca. reflexivity. }
  split; [exact Hca|]. split; [exact Hcr|]. split; [exact Hcu|].
  split; [exact Hcs|].
  intros key H1 H2 H3 H4. unfold clearTokens.
  rewrite !lookup_delete_ne by congruence.
  subst stored. unfold setTokens. destruct user; cbn zeta;
    rewrite !lookup_insert_ne by congruence; reflexivity.
Qed.

Lemma tokens_are_read_back_and_cleared_witness :
  let ls : gmap string string := {[ "theme" := "dark"; AUTH_STORE_KEY := "{}" ]} in
  let stored := setTokens (Some "a") (Some "r") (Some "alice") ls in
  isAuthenticated stored = true
  /\ stored !! USER_KEY = Some "alice"
  /\ clearTokens stored !! ACCESS_TOKEN_KEY = None
  /\ clearTokens stored !! REFRESH_TOKEN_KEY = None
  /\ clearTokens stored !! USER_KEY = None
  /\ clearTokens stored !! AUTH_STORE_KEY = None
  /\ clearTokens stored !! "theme" = Some "dark".
Proof.
  intros ls stored.
  destruct (tokens_are_read_back_and_cleared "a" "r" (Some "alice") ls)
    as (_ & _ & Huser & Hauth & _ & Hca & Hcr & Hcu & Hcs & Hrest);
    [reflexivity..|].
  split; [exact Hauth|]. split; [exact Huser|].
  split; [exact Hca|]. split; [exact Hcr|]. split; [exact Hcu|].
  split; [exact Hcs|].
  fold stored in Hrest. rewrite Hrest by discriminate. reflexivity.
Defined.

End Storage.
